(** * website-analyzer: the advisory pipeline of [api/analyze.js]

    The file [api/analyze.js] holds two implementations of one endpoint:

    - lines 1-429, the handler built on the platform [fetch] and on string
      and regular-expression tests ([handler], [analyzeHTML]); it is
      embedded in [Module RegexVariant];
    - lines 430-775, the handler built on axios and cheerio ([safeText],
      [analyzeWebsite], [compileResults], [handler]); it is embedded in
      [Module DomVariant].

    Strings are [string]: one [ascii] stands for one UTF-16 code unit below
    256, so documents are Latin-1 text.  Numbers that the code only counts
    with are [nat]; the elapsed time is a [Z].

    The libraries are not part of the file.  What cheerio finds in a
    document, what it does with a value that is not a string, and what
    axios makes of a reply text are parameters ([Libraries]); the code
    around them is embedded as it stands, including the [try] that a reply
    parsed as JSON leaves through its [catch]. *)

From Stdlib Require Import String Ascii List ZArith Lia Bool Arith.
From Stdlib Require Import DecimalString.
Import ListNotations.

Local Open Scope list_scope.
Local Open Scope string_scope.
Local Open Scope nat_scope.

(** ** The runtime's string primitives *)

Module JS.

(** WhiteSpace and LineTerminator code units below 256: TAB, LF, VT, FF, CR,
    SPACE and NBSP.  It is the set [String.prototype.trim] strips and the
    class [\s] matches. *)
Definition isWhiteSpace (c : ascii) : bool :=
  let n := nat_of_ascii c in
  ((9 <=? n) && (n <=? 13)) || (n =? 32) || (n =? 160).

(** LineTerminator code units below 256: the ones [.] does not match. *)
Definition isLineTerminator (c : ascii) : bool :=
  let n := nat_of_ascii c in
  (n =? 10) || (n =? 13).

Fixpoint trimStart (s : string) : string :=
  match s with
  | String c s' => if isWhiteSpace c then trimStart s' else s
  | EmptyString => EmptyString
  end.

(** [trimEnd] keeps a character when it is not white space or when something
    is left after it. *)
Fixpoint trimEnd (s : string) : string :=
  match s with
  | EmptyString => EmptyString
  | String c s' =>
      match trimEnd s' with
      | EmptyString => if isWhiteSpace c then EmptyString else String c EmptyString
      | r => String c r
      end
  end.

(** [s.trim()] *)
Definition trim (s : string) : string := trimEnd (trimStart s).

(** One code unit through [toLowerCase]: A-Z and the Latin-1 capitals
    U+00C0-U+00DE (but not the multiplication sign U+00D7) move up by 32. *)
Definition lowerChar (c : ascii) : ascii :=
  let n := nat_of_ascii c in
  if ((65 <=? n) && (n <=? 90))
     || ((192 <=? n) && (n <=? 222) && negb (n =? 215))
  then ascii_of_nat (n + 32) else c.

(** [s.toLowerCase()] *)
Fixpoint toLowerCase (s : string) : string :=
  match s with
  | EmptyString => EmptyString
  | String c s' => String (lowerChar c) (toLowerCase s')
  end.

(** [s.startsWith(p)] *)
Definition startsWith (s p : string) : bool := String.prefix p s.

(** [s.includes(needle)] *)
Fixpoint includes (s needle : string) : bool :=
  String.prefix needle s
  || match s with
     | EmptyString => false
     | String _ s' => includes s' needle
     end.

(** The decimal text a template literal interpolates for a count. *)
Definition numToString (n : nat) : string :=
  NilZero.string_of_uint (Nat.to_uint n).

(** [s.split(/\s+/).length]: one more than the number of maximal runs of
    white space ([inRun] tells that the previous character was one). *)
Fixpoint countRuns (inRun : bool) (s : string) : nat :=
  match s with
  | EmptyString => 0
  | String c s' =>
      if isWhiteSpace c
      then (if inRun then 0 else 1) + countRuns true s'
      else countRuns false s'
  end.

Definition splitWhitespaceLength (s : string) : nat := S (countRuns false s).

(** *** [(ms / 1000).toFixed(1)]

    [ms] is an integer number of milliseconds.  The quotient is the double
    nearest to [ms / 1000] (ties to even); [toFixed(1)] then takes the
    integer [n] for which [n / 10] is nearest to that double, the larger one
    on a tie, and writes it with one digit after the point.  The double is
    kept as mantissa and binary exponent, [m * 2 ^ e] with [m] of 53 bits,
    which is exact for every normal double (any [ms] from 1 up to 2^53). *)

(** [floor (log2 (a / 1000))] for [a > 0]: one of the two candidates that
    [Z.log2 a] leaves. *)
Definition log2Quotient (a : Z) : Z :=
  let k := (Z.log2 a - 9)%Z in
  let reaches := if (0 <=? k)%Z then (1000 * 2 ^ k <=? a)%Z
                 else (1000 <=? a * 2 ^ (- k))%Z in
  if reaches then k else (k - 1)%Z.

(** The integer nearest to [num / den], the even one on a tie. *)
Definition roundNearestEven (num den : Z) : Z :=
  let q := (num / den)%Z in
  let r := (num mod den)%Z in
  if (2 * r <? den)%Z then q
  else if (den <? 2 * r)%Z then (q + 1)%Z
  else if Z.even q then q else (q + 1)%Z.

(** The double [a / 1000] for [a > 0], as [(m, e)] with value [m * 2 ^ e]. *)
Definition divideBy1000 (a : Z) : Z * Z :=
  let e := (log2Quotient a - 52)%Z in
  let m := if (e <=? 0)%Z then roundNearestEven (a * 2 ^ (- e)) 1000
           else roundNearestEven a (1000 * 2 ^ e) in
  (m, e).

(** [floor (10 * m * 2 ^ e + 1/2)]: the tenths [toFixed(1)] prints. *)
Definition nearestTenths (me : Z * Z) : Z :=
  let (m, e) := me in
  if (e <? 0)%Z then ((20 * m + 2 ^ (- e)) / 2 ^ (1 - e))%Z
  else (10 * m * 2 ^ e)%Z.

(** The digits of [n] with a point before the last one. *)
Definition withOneDecimal (n : Z) : string :=
  let digits := NilZero.string_of_uint (N.to_uint (Z.to_N n)) in
  let digits := if (n <? 10)%Z then "0" ++ digits else digits in
  substring 0 (String.length digits - 1) digits ++ "."
  ++ substring (String.length digits - 1) 1 digits.

Definition toFixed1 (ms : Z) : string :=
  if (ms =? 0)%Z then "0.0"
  else if (ms <? 0)%Z
       then "-" ++ withOneDecimal (nearestTenths (divideBy1000 (- ms)))
       else withOneDecimal (nearestTenths (divideBy1000 ms)).

End JS.

(** ** Data model *)

(** [{ text, source }] *)
Record AdvisoryItem := { text : string; source : string }.

(** [{ category, icon, priority, items }]; the icons are carried as the
    bytes of the source file and never inspected. *)
Record OutputGroup := {
  category : string;
  icon : string;
  priority : string;
  items : list AdvisoryItem
}.

(** The [results] object of [analyzeWebsite]: six arrays, each grown by
    [push] only. *)
Record Improvements := {
  seo : list AdvisoryItem;
  performance : list AdvisoryItem;
  wordpress : list AdvisoryItem;
  ux : list AdvisoryItem;
  accessibility : list AdvisoryItem;
  content : list AdvisoryItem
}.

(** What [req.body.url] can hold: nothing, a string, or a value of another
    type, of which only its truthiness is looked at before [startsWith]
    fails on it. *)
Inductive JsValue :=
| JUndefined
| JString (s : string)
| JOther (truthy : bool).

(** [req]: the method and the parsed body, [None] when there is no body. *)
Record Request := { method : string; body : option JsValue }.

Inductive Json :=
| NoBody
| ErrorJson (error : string)
| ResultJson (url : string) (improvements : list OutputGroup).

(** [res] once the handler is done; [status] is 200 unless set. *)
Record Response := {
  status : nat;
  headers : list (string * string);
  payload : Json
}.

(** ** The world a handler runs in *)

(** One GET of the page: the server's status and text, or no reply at all
    (transport error, or the 10 s timeout). *)
Inductive HttpOutcome :=
| Replied (code : nat) (data : string)
| Failed (message : string).

Definition Net := string -> HttpOutcome.

(** The success range, [response.ok] of fetch and the default
    [validateStatus] of axios. *)
Definition isSuccess (code : nat) : bool := (200 <=? code) && (code <? 300).

(** The console is the only thing a run leaves behind: handlers are written
    in a state monad over the lines printed so far. *)
Definition Console := list string.
Definition IO (A : Type) : Type := Console -> A * Console.

Definition ret {A} (a : A) : IO A := fun c => (a, c).
Definition bind {A B} (m : IO A) (k : A -> IO B) : IO B :=
  fun c => let (a, c') := m c in k a c'.
Definition consoleLog (label arg : string) : IO unit :=
  fun c => (tt, app c [(label ++ " " ++ arg)%string]).

Notation "x <- m ;; k" := (bind m (fun x => k))
  (at level 61, m at next level, right associativity).
Notation "m ;;; k" := (bind m (fun _ => k))
  (at level 61, right associativity).

(** JavaScript truthiness of a string, and of a string that may be
    [undefined]. *)
Definition truthyString (s : string) : bool := negb (s =? EmptyString)%string.
Definition truthy (o : option string) : bool :=
  match o with Some s => truthyString s | None => false end.

(** The CORS headers every response starts with. *)
Definition corsHeaders : list (string * string) :=
  [ ("Access-Control-Allow-Origin", "*");
    ("Access-Control-Allow-Methods", "POST, OPTIONS");
    ("Access-Control-Allow-Headers", "Content-Type") ].

Definition respond (st : nat) (j : Json) : Response :=
  {| status := st; headers := corsHeaders; payload := j |}.

(** "Ensure URL has protocol", the same three lines in both handlers. *)
Definition ensureProtocol (url : string) : string :=
  if negb (JS.startsWith url "http://") && negb (JS.startsWith url "https://")
  then "https://" ++ url else url.

(** The double quote, for the literals of the source that hold one. *)
Definition dq : string := String "034"%char EmptyString.
Definition quoted (s : string) : string := dq ++ s ++ dq.

(** ** Regular expressions of the source, as matchers *)

Module RegExp.

(** [s] without its first [n] code units. *)
Fixpoint dropChars (n : nat) (s : string) : string :=
  match n, s with
  | S k, String _ s' => dropChars k s'
  | _, _ => s
  end.

(** Leftmost match: the first suffix of [s] at whose start [m] matches. *)
Fixpoint firstMatch {A} (m : string -> option A) (s : string) : option A :=
  match m s with
  | Some r => Some r
  | None =>
      match s with
      | EmptyString => None
      | String _ s' => firstMatch m s'
      end
  end.

(** [[^\/]+] is greedy: everything up to the next slash. *)
Fixpoint untilSlash (s : string) : string :=
  match s with
  | EmptyString => EmptyString
  | String c s' => if (c =? "/")%char then EmptyString else String c (untilSlash s')
  end.

(** [/wp-content\/themes\/([^\/]+)/] at the start of [s]: the capture. *)
Definition themeAt (s : string) : option string :=
  if String.prefix "wp-content/themes/" s
  then let name := untilSlash (dropChars (String.length "wp-content/themes/") s) in
       if (name =? EmptyString)%string then None else Some name
  else None.

(** [html.match(/wp-content\/themes\/([^\/]+)/)]: [themeMatch[1]] when the
    match is not [null]. *)
Definition matchTheme (html : string) : option string := firstMatch themeAt html.

(** One code unit under the [i] flag (no [u] flag): both sides go through
    [toUpperCase], and a code unit from 128 up never meets an ASCII one.
    The patterns hold ASCII only. *)
Definition upperAscii (c : ascii) : ascii :=
  let n := nat_of_ascii c in
  if (97 <=? n) && (n <=? 122) then ascii_of_nat (n - 32) else c.

Fixpoint prefixIgnoreCase (pat s : string) : bool :=
  match pat, s with
  | EmptyString, _ => true
  | String p pat', String c s' =>
      (upperAscii p =? upperAscii c)%char && prefixIgnoreCase pat' s'
  | String _ _, EmptyString => false
  end.

(** [[^>]*>] at the start of [s]: greedy, so up to and with the first [>];
    the matched text and what follows it. *)
Fixpoint throughFirstGt (s : string) : option (string * string) :=
  match s with
  | EmptyString => None
  | String c s' =>
      if (c =? ">")%char then Some (String c EmptyString, s')
      else match throughFirstGt s' with
           | Some (m, rest) => Some (String c m, rest)
           | None => None
           end
  end.

(** [/<NAME[^>]*>/i] at the start of [s]: the matched text. *)
Definition openTagAt (name s : string) : option string :=
  let opening := "<" ++ name in
  if prefixIgnoreCase opening s
  then match throughFirstGt (dropChars (String.length opening) s) with
       | Some (m, _) => Some (substring 0 (String.length opening) s ++ m)
       | None => None
       end
  else None.

(** [html.match(/<NAME[^>]*>/gi) || []]: every match from left to right,
    the search going on behind each one ([skip] code units of the last
    match are still to be passed). *)
Fixpoint scanOpenTags (name : string) (skip : nat) (s : string) : list string :=
  match s with
  | EmptyString => []
  | String _ s' =>
      match skip with
      | S k => scanOpenTags name k s'
      | O =>
          match openTagAt name s with
          | Some m => m :: scanOpenTags name (String.length m - 1) s'
          | None => scanOpenTags name 0 s'
          end
      end
  end.

Definition matchAllOpenTags (name html : string) : list string :=
  scanOpenTags name 0 html.

(** [(.*?)<\/title>] at the start of [s] under [i]: lazy, so up to the first
    closing tag, and [.] stops at a line terminator. *)
Fixpoint lazyUntilClose (close s : string) : option string :=
  if prefixIgnoreCase close s then Some EmptyString
  else match s with
       | EmptyString => None
       | String c s' =>
           if JS.isLineTerminator c then None
           else match lazyUntilClose close s' with
                | Some t => Some (String c t)
                | None => None
                end
       end.

(** [/<title[^>]*>(.*?)<\/title>/i] at the start of [s]: the capture. *)
Definition titleAt (s : string) : option string :=
  if prefixIgnoreCase "<title" s
  then match throughFirstGt (dropChars (String.length "<title") s) with
       | Some (_, rest) => lazyUntilClose "</title>" rest
       | None => None
       end
  else None.

(** [html.match(/<title[^>]*>(.*?)<\/title>/i)]: [titleMatch[1]] when the
    match is not [null]. *)
Definition matchTitle (html : string) : option string := firstMatch titleAt html.

End RegExp.

(** ** cheerio, as far as the source asks it *)

Module Cheerio.

(** A matched element: its attributes and the text of its subtree. *)
Record Element := { attribs : list (string * string); textContent : string }.

(** [$(selector)]: the matched elements in document order. *)
Definition Selection := list Element.

(** [$], the loaded document: a selector gives a selection. *)
Definition Document := string -> Selection.

Fixpoint getAttribute (name : string) (l : list (string * string)) : option string :=
  match l with
  | [] => None
  | (k, v) :: l' => if (k =? name)%string then Some v else getAttribute name l'
  end.

(** [sel.attr(name)]: the attribute of the first matched element,
    [undefined] when the selection is empty or the attribute absent. *)
Definition attr (sel : Selection) (name : string) : option string :=
  match sel with
  | [] => None
  | e :: _ => getAttribute name (attribs e)
  end.

(** [sel.text()]: the texts of the matched elements, one after the other. *)
Definition text (sel : Selection) : string :=
  String.concat EmptyString (map textContent sel).

End Cheerio.

(** ** What axios hands over

    [response.data] is the reply text, unless the text is JSON: axios then
    hands over the value it parsed from it, which is a string only when the
    text was a JSON string. *)

Module JSON.

#[warnings="-register-all"]
Inductive value :=
| Null
| Boolean (b : bool)
| Number (literal : string)
| Str (s : string)
| Array (elements : list value)
| Object (members : list (string * value)).

Definition isString (v : value) : bool :=
  match v with Str _ => true | _ => false end.

Definition isArray (v : value) : bool :=
  match v with Array _ => true | _ => false end.

(** [elements.includes(needle)] for a string [needle]: some element is that
    very string. *)
Definition arrayIncludes (elements : list value) (needle : string) : bool :=
  existsb (fun e => match e with Str s => (s =? needle)%string | _ => false end)
    elements.

End JSON.

(** The two libraries, as far as [analyzeWebsite] relies on them:
    - [axiosData text] is [response.data] for a reply with this text,
      [JSON.Str text] when the text is not JSON;
    - [cheerioLoad] is [cheerio.load] on a string;
    - [cheerioLoadValue] is [cheerio.load] handed anything else: the
      document it builds around the value, or the message of what it
      throws. *)
Record Libraries := {
  axiosData : string -> JSON.value;
  cheerioLoad : string -> Cheerio.Document;
  cheerioLoadValue : JSON.value -> Cheerio.Document + string
}.

(** ** The advisory texts

    The two implementations share the wording of the advisories they have
    in common.  First the ones of [analyzeWebsite], in the order of the
    source. *)
Definition useHttps : AdvisoryItem :=
  {| text := "Site should use HTTPS for security and SEO benefits";
     source := "Google HTTPS ranking factor" |}.
Definition urlTooLong : AdvisoryItem :=
  {| text := "URL is quite long - consider shortening for better SEO";
     source := "SEO best practices" |}.
Definition missingTitle : AdvisoryItem :=
  {| text := "Missing page title - add a descriptive title tag";
     source := "Google SEO guidelines" |}.
Definition titleTooLong (len : nat) : AdvisoryItem :=
  {| text := "Page title is " ++ JS.numToString len
             ++ " characters - should be 50-60 for optimal display";
     source := "Google SERP optimization" |}.
Definition titleTooShort : AdvisoryItem :=
  {| text := "Page title seems short - consider making it more descriptive";
     source := "SEO title optimization" |}.
Definition missingMetaDescription : AdvisoryItem :=
  {| text := "Missing meta description - add one for better search results";
     source := "Google SEO best practices" |}.
Definition metaDescriptionTooLong (len : nat) : AdvisoryItem :=
  {| text := "Meta description is " ++ JS.numToString len
             ++ " characters - should be 150-160";
     source := "Google SERP guidelines" |}.
Definition imagesWithoutAltText (count : nat) : AdvisoryItem :=
  {| text := "Found " ++ JS.numToString count
             ++ " images without alt text - add for accessibility";
     source := "WCAG 2.1 accessibility standards" |}.
Definition noH1 : AdvisoryItem :=
  {| text := "No H1 heading found - add one for better SEO structure";
     source := "SEO heading hierarchy" |}.
Definition multipleH1 (count : nat) : AdvisoryItem :=
  {| text := "Found " ++ JS.numToString count
             ++ " H1 headings - should typically have only one per page";
     source := "SEO best practices" |}.
Definition wordPressDetected : AdvisoryItem :=
  {| text := "WordPress site detected - great choice for content management";
     source := "WordPress site analysis" |}.
Definition usingTheme (name : string) : AdvisoryItem :=
  {| text := "Using WordPress theme: " ++ name ++ " - ensure it's regularly updated";
     source := "WordPress security best practices" |}.
Definition installJetpack : AdvisoryItem :=
  {| text := "Consider installing Jetpack for enhanced performance and security";
     source := "WordPress.com recommendations" |}.
Definition slowLoad (loadTime : Z) : AdvisoryItem :=
  {| text := "Page loaded in " ++ JS.toFixed1 loadTime
             ++ " seconds - should be under 3 seconds";
     source := "Google Core Web Vitals" |}.
Definition missingOpenGraph : AdvisoryItem :=
  {| text := "Missing Open Graph tags - add for better social media sharing";
     source := "Facebook Open Graph documentation" |}.
Definition limitedContent : AdvisoryItem :=
  {| text := "Page has limited content - consider adding more valuable information";
     source := "Content quality guidelines" |}.
Definition noContactInformation : AdvisoryItem :=
  {| text := "No obvious contact information found - make it easy for users to reach you";
     source := "User experience best practices" |}.
Definition missingViewport : AdvisoryItem :=
  {| text := "Missing viewport meta tag - important for mobile responsiveness";
     source := "Google Mobile-First indexing" |}.
Definition noStructuredData : AdvisoryItem :=
  {| text := "No structured data found - consider adding schema markup";
     source := "Google structured data guidelines" |}.
Definition optimizeImages : AdvisoryItem :=
  {| text := "Optimize images using WordPress.com built-in compression";
     source := "WordPress.com performance features" |}.
Definition genericPerformance : AdvisoryItem :=
  {| text := "Consider implementing image optimization and caching for better performance";
     source := "Web performance best practices" |}.
Definition genericUx : AdvisoryItem :=
  {| text := "Add clear call-to-action buttons to guide user behavior";
     source := "Conversion optimization guidelines" |}.
Definition unableToAnalyze : AdvisoryItem :=
  {| text := "Unable to fully analyze site - ensure it's publicly accessible";
     source := "Site accessibility check" |}.
Definition considerHosting : AdvisoryItem :=
  {| text := "Consider WordPress.com hosting for reliable performance and security";
     source := "WordPress.com hosting benefits" |}.

(** The ones only [analyzeHTML] has. *)
Definition businessPlan : AdvisoryItem :=
  {| text := "Consider upgrading to WordPress.com Business plan for advanced customization and SEO tools";
     source := "WordPress.com plan recommendations for growing sites" |}.
Definition wooCommerce : AdvisoryItem :=
  {| text := "Site mentions products/shopping - consider WordPress.com Business plan with WooCommerce for e-commerce";
     source := "E-commerce functionality analysis" |}.
Definition migrate : AdvisoryItem :=
  {| text := "Consider migrating to WordPress.com for better content management";
     source := "Platform recommendation" |}.

(** The outer [catch]: log, answer 500. *)
Definition serverError (what : string) : IO Response :=
  consoleLog "Server error:" what ;;;
  ret (respond 500 (ErrorJson "Analysis failed")).

(** ** Lines 430-775: the axios and cheerio implementation *)

Module DomVariant.

Definition emptyResults : Improvements :=
  {| seo := []; performance := []; wordpress := []; ux := [];
     accessibility := []; content := [] |}.

(** [results.seo.push(item)] and its five siblings. *)
Definition push_seo (i : AdvisoryItem) (r : Improvements) : Improvements :=
  {| seo := seo r ++ [i]; performance := performance r;
     wordpress := wordpress r; ux := ux r;
     accessibility := accessibility r; content := content r |}.
Definition push_performance (i : AdvisoryItem) (r : Improvements) : Improvements :=
  {| seo := seo r; performance := performance r ++ [i];
     wordpress := wordpress r; ux := ux r;
     accessibility := accessibility r; content := content r |}.
Definition push_wordpress (i : AdvisoryItem) (r : Improvements) : Improvements :=
  {| seo := seo r; performance := performance r;
     wordpress := wordpress r ++ [i]; ux := ux r;
     accessibility := accessibility r; content := content r |}.
Definition push_ux (i : AdvisoryItem) (r : Improvements) : Improvements :=
  {| seo := seo r; performance := performance r;
     wordpress := wordpress r; ux := ux r ++ [i];
     accessibility := accessibility r; content := content r |}.
Definition push_accessibility (i : AdvisoryItem) (r : Improvements) : Improvements :=
  {| seo := seo r; performance := performance r;
     wordpress := wordpress r; ux := ux r;
     accessibility := accessibility r ++ [i]; content := content r |}.
Definition push_content (i : AdvisoryItem) (r : Improvements) : Improvements :=
  {| seo := seo r; performance := performance r;
     wordpress := wordpress r; ux := ux r;
     accessibility := accessibility r; content := content r ++ [i] |}.

(** A statement whose condition is false leaves [results] as it is. *)
Definition unchanged (results : Improvements) : Improvements := results.

(** [safeText(element)]: [element ? element.trim() : ''] *)
Definition safeText (element : string) : string :=
  if truthyString element then JS.trim element else EmptyString.

Section Analysis.

(** [cheerio.load]: the parser is the library's; the analysis only asks the
    loaded document for selections. *)
Variable load : string -> Cheerio.Document.

(** The [images.each] loop: [imagesWithoutAlt++] for every image whose
    [alt] is falsy. *)
Definition countImagesWithoutAlt (images : Cheerio.Selection) : nat :=
  fold_left
    (fun imagesWithoutAlt img =>
       if negb (truthy (Cheerio.attr [img] "alt"))
       then S imagesWithoutAlt else imagesWithoutAlt)
    images 0.

(** [isWordPress], with [doc] for the source's [$]; the [?.] makes the third test falsy when there is no
    generator content. *)
Definition isWordPress (html : string) (doc : Cheerio.Document) : bool :=
  JS.includes html "wp-content"
  || JS.includes html "wordpress"
  || match Cheerio.attr (doc ("meta[name=" ++ quoted "generator" ++ "]")) "content" with
     | Some c => JS.includes c "WordPress"
     | None => false
     end.

(** The body of the [try] of [analyzeWebsite] from [cheerio.load] on, run
    on a fetched [html] that is a string and on the measured [loadTime].
    Each statement
    [if (c) results.b.push(item)] is the step
    [(if c then push_b item else unchanged) results].  ([new URL(url)]
    builds a value that is never used; axios has parsed the same string
    before it replied, so the constructor does not throw here.) *)
Definition runChecks (url html : string) (loadTime : Z) : Improvements :=
  let doc := load html in
  let results := emptyResults in
  (* HTTPS Check *)
  let results :=
    (if negb (JS.startsWith url "https://") then push_seo useHttps
     else unchanged) results in
  (* URL length check *)
  let results :=
    (if 60 <? String.length url then push_seo urlTooLong else unchanged) results in
  (* Title tag analysis *)
  let title := safeText (Cheerio.text (doc "title")) in
  let results :=
    (if negb (truthyString title) then push_seo missingTitle
     else if 60 <? String.length title
          then push_seo (titleTooLong (String.length title))
     else if String.length title <? 30 then push_seo titleTooShort
     else unchanged) results in
  (* Meta description analysis *)
  let metaDesc := Cheerio.attr (doc ("meta[name=" ++ quoted "description" ++ "]")) "content" in
  let results :=
    match metaDesc with
    | None => push_seo missingMetaDescription
    | Some metaDesc =>
        if negb (truthyString metaDesc) then push_seo missingMetaDescription
        else if 160 <? String.length metaDesc
             then push_seo (metaDescriptionTooLong (String.length metaDesc))
        else unchanged
    end results in
  (* Image alt text analysis *)
  let images := doc "img" in
  let imagesWithoutAlt := countImagesWithoutAlt images in
  let results :=
    (if 0 <? imagesWithoutAlt
     then push_accessibility (imagesWithoutAltText imagesWithoutAlt)
     else unchanged) results in
  (* Heading structure analysis *)
  let h1Count := List.length (doc "h1") in
  let results :=
    (if h1Count =? 0 then push_seo noH1
     else if 1 <? h1Count then push_seo (multipleH1 h1Count)
     else unchanged) results in
  (* Check for common WordPress indicators *)
  let isWordPress := isWordPress html doc in
  let results :=
    (if isWordPress then
       fun results =>
         let results := push_wordpress wordPressDetected results in
         (* WordPress-specific checks *)
         let results :=
           (if JS.includes html "wp-content/themes/" then
              match RegExp.matchTheme html with
              | Some name => push_wordpress (usingTheme name)
              | None => unchanged
              end
            else unchanged) results in
         (if negb (JS.includes html "jetpack")
          then push_wordpress installJetpack
          else unchanged) results
     else unchanged) results in
  (* Performance analysis *)
  let results :=
    (if (3000 <? loadTime)%Z then push_performance (slowLoad loadTime)
     else unchanged) results in
  (* Check for Open Graph tags *)
  let ogTitle := Cheerio.attr (doc ("meta[property=" ++ quoted "og:title" ++ "]")) "content" in
  let ogDesc := Cheerio.attr (doc ("meta[property=" ++ quoted "og:description" ++ "]")) "content" in
  let results :=
    (if negb (truthy ogTitle) || negb (truthy ogDesc)
     then push_seo missingOpenGraph else unchanged) results in
  (* Content analysis *)
  let textContent := Cheerio.text (doc "body") in
  let wordCount := JS.splitWhitespaceLength textContent in
  let results :=
    (if wordCount <? 300 then push_content limitedContent else unchanged) results in
  (* Check for contact information *)
  let results :=
    (if negb (JS.includes (JS.toLowerCase html) "contact")
        && negb (JS.includes (JS.toLowerCase html) "email")
        && negb (JS.includes (JS.toLowerCase html) "@")
     then push_ux noContactInformation else unchanged) results in
  (* Mobile viewport check *)
  let viewport := Cheerio.attr (doc ("meta[name=" ++ quoted "viewport" ++ "]")) "content" in
  let results :=
    (if negb (truthy viewport) then push_ux missingViewport else unchanged) results in
  (* Check for schema markup *)
  let results :=
    (if negb (JS.includes html "schema.org")
        && (List.length (doc ("script[type=" ++ quoted "application/ld+json" ++ "]")) =? 0)
     then push_seo noStructuredData else unchanged) results in
  (* WordPress.com specific recommendations if it's a WP site *)
  let results :=
    (if isWordPress then push_wordpress optimizeImages else unchanged) results in
  (* If no issues found in a category, add some general recommendations *)
  let results :=
    (if List.length (performance results) =? 0
     then push_performance genericPerformance else unchanged) results in
  let results :=
    (if List.length (ux results) =? 0
     then push_ux genericUx else unchanged) results in
  results.

End Analysis.

(** The same body when [html] is not a string, with [doc] for what
    [cheerio.load] made of it.  The checks that only ask the document run
    as on a page; the first call of a method that only strings have throws,
    and [results] stays as it was at that moment: the buckets, and the
    message of the error when one is thrown.  [includes] exists on arrays
    too; [match] and [toLowerCase] do not. *)
Definition runChecksOnValue (doc : Cheerio.Document) (url : string)
    (html : JSON.value) (loadTime : Z) : Improvements * option string :=
  match html with
  | JSON.Str html => (runChecks (fun _ => doc) url html loadTime, None)
  | _ =>
  let results := emptyResults in
  (* HTTPS Check *)
  let results :=
    (if negb (JS.startsWith url "https://") then push_seo useHttps
     else unchanged) results in
  (* URL length check *)
  let results :=
    (if 60 <? String.length url then push_seo urlTooLong else unchanged) results in
  (* Title tag analysis *)
  let title := safeText (Cheerio.text (doc "title")) in
  let results :=
    (if negb (truthyString title) then push_seo missingTitle
     else if 60 <? String.length title
          then push_seo (titleTooLong (String.length title))
     else if String.length title <? 30 then push_seo titleTooShort
     else unchanged) results in
  (* Meta description analysis *)
  let metaDesc := Cheerio.attr (doc ("meta[name=" ++ quoted "description" ++ "]")) "content" in
  let results :=
    match metaDesc with
    | None => push_seo missingMetaDescription
    | Some metaDesc =>
        if negb (truthyString metaDesc) then push_seo missingMetaDescription
        else if 160 <? String.length metaDesc
             then push_seo (metaDescriptionTooLong (String.length metaDesc))
        else unchanged
    end results in
  (* Image alt text analysis *)
  let images := doc "img" in
  let imagesWithoutAlt := countImagesWithoutAlt images in
  let results :=
    (if 0 <? imagesWithoutAlt
     then push_accessibility (imagesWithoutAltText imagesWithoutAlt)
     else unchanged) results in
  (* Heading structure analysis *)
  let h1Count := List.length (doc "h1") in
  let results :=
    (if h1Count =? 0 then push_seo noH1
     else if 1 <? h1Count then push_seo (multipleH1 h1Count)
     else unchanged) results in
  (* Check for common WordPress indicators *)
  match html with
  | JSON.Array elements =>
      let isWordPress :=
        JSON.arrayIncludes elements "wp-content"
        || JSON.arrayIncludes elements "wordpress"
        || match Cheerio.attr (doc ("meta[name=" ++ quoted "generator" ++ "]")) "content" with
           | Some c => JS.includes c "WordPress"
           | None => false
           end in
      if isWordPress && JSON.arrayIncludes elements "wp-content/themes/"
      then (push_wordpress wordPressDetected results,
            Some "html.match is not a function")
      else
        let results :=
          (if isWordPress then
             fun results =>
               let results := push_wordpress wordPressDetected results in
               (if negb (JSON.arrayIncludes elements "jetpack")
                then push_wordpress installJetpack
                else unchanged) results
           else unchanged) results in
        (* Performance analysis *)
        let results :=
          (if (3000 <? loadTime)%Z then push_performance (slowLoad loadTime)
           else unchanged) results in
        (* Check for Open Graph tags *)
        let ogTitle := Cheerio.attr (doc ("meta[property=" ++ quoted "og:title" ++ "]")) "content" in
        let ogDesc := Cheerio.attr (doc ("meta[property=" ++ quoted "og:description" ++ "]")) "content" in
        let results :=
          (if negb (truthy ogTitle) || negb (truthy ogDesc)
           then push_seo missingOpenGraph else unchanged) results in
        (* Content analysis *)
        let textContent := Cheerio.text (doc "body") in
        let wordCount := JS.splitWhitespaceLength textContent in
        let results :=
          (if wordCount <? 300 then push_content limitedContent else unchanged) results in
        (* Check for contact information *)
        (results, Some "html.toLowerCase is not a function")
  | JSON.Null =>
      (results, Some "Cannot read properties of null (reading 'includes')")
  | _ => (results, Some "html.includes is not a function")
  end
  end.

(** What [axios.get] rejects with when the server replied outside the
    success range. *)
Definition statusError (code : nat) : string :=
  "Request failed with status code " ++ JS.numToString code.

(** The [catch] of [analyzeWebsite]: its two advisories go after whatever
    the [try] had pushed when it threw. *)
Definition analysisError (results : Improvements) (message : string) : IO Improvements :=
  consoleLog "Analysis error:" message ;;;
  ret (push_wordpress considerHosting (push_seo unableToAnalyze results)).

(** [analyzeWebsite(url)], in the world [net] and with [elapsed]
    milliseconds between the two readings of the clock.  axios rejects
    before anything is pushed; a reply in the success range gives
    [html = response.data], a string or not. *)
Definition analyzeWebsite (lib : Libraries) (net : Net) (elapsed : Z) (url : string)
    : IO Improvements :=
  match net url with
  | Replied code data =>
      if isSuccess code then
        match axiosData lib data with
        | JSON.Str html => ret (runChecks (cheerioLoad lib) url html elapsed)
        | html =>
            match cheerioLoadValue lib html with
            | inr message => analysisError emptyResults message
            | inl doc =>
                match runChecksOnValue doc url html elapsed with
                | (results, Some message) => analysisError results message
                | (results, None) => ret results
                end
            end
        end
      else analysisError emptyResults (statusError code)
  | Failed message => analysisError emptyResults message
  end.

(** [compileResults(improvements)] *)
Definition compileResults (improvements : Improvements) : list OutputGroup :=
  let results := [] in
  let results :=
    if 0 <? List.length (seo improvements)
    then (results ++ [ {| category := "SEO Optimization"; icon := "🔍";
                         priority := "high"; items := seo improvements |} ])%list
    else results in
  let results :=
    if 0 <? List.length (wordpress improvements)
    then (results ++ [ {| category := "WordPress.com Specific"; icon := "⚡";
                         priority := "high"; items := wordpress improvements |} ])%list
    else results in
  let results :=
    if 0 <? List.length (performance improvements)
    then (results ++ [ {| category := "Performance"; icon := "🚀";
                         priority := "medium"; items := performance improvements |} ])%list
    else results in
  let results :=
    if 0 <? List.length (ux improvements)
    then (results ++ [ {| category := "User Experience"; icon := "👤";
                         priority := "medium"; items := ux improvements |} ])%list
    else results in
  let results :=
    if 0 <? List.length (content improvements)
    then (results ++ [ {| category := "Content & Structure"; icon := "✍️";
                         priority := "medium"; items := content improvements |} ])%list
    else results in
  let results :=
    if 0 <? List.length (accessibility improvements)
    then (results ++ [ {| category := "Accessibility"; icon := "♿";
                         priority := "low"; items := accessibility improvements |} ])%list
    else results in
  results.

(** [handler(req, res)] *)
Definition handler (lib : Libraries) (net : Net) (elapsed : Z)
    (req : Request) : IO Response :=
  if (method req =? "OPTIONS")%string then ret (respond 200 NoBody)
  else if negb (method req =? "POST")%string
  then ret (respond 405 (ErrorJson "Method not allowed"))
  else
    match body req with
    | None => serverError "TypeError: Cannot destructure property 'url' of 'req.body' as it is undefined."
    | Some JUndefined | Some (JOther false) =>
        ret (respond 400 (ErrorJson "URL is required"))
    | Some (JOther true) => serverError "TypeError: targetUrl.startsWith is not a function"
    | Some (JString url) =>
        if negb (truthyString url) then ret (respond 400 (ErrorJson "URL is required"))
        else
          (* Ensure URL has protocol *)
          let targetUrl := url in
          let targetUrl :=
            if negb (JS.startsWith targetUrl "http://")
               && negb (JS.startsWith targetUrl "https://")
            then "https://" ++ targetUrl else targetUrl in
          consoleLog "Analyzing:" targetUrl ;;;
          improvements <- analyzeWebsite lib net elapsed targetUrl ;;
          let results := compileResults improvements in
          ret (respond 200 (ResultJson targetUrl results))
    end.

End DomVariant.

(** ** Lines 1-429: the fetch and string-test implementation *)

Module RegexVariant.

(** The [fallbackResults] literal of the inner [catch]. *)
Definition fallbackResults : list OutputGroup :=
  [ {| category := "Site Access"; icon := "⚠️"; priority := "high";
       items :=
         [ {| text := "Unable to fully analyze site - may have access restrictions";
              source := "Connection analysis" |};
           {| text := "Ensure site is publicly accessible and not blocking automated requests";
              source := "Accessibility check" |} ] |};
    {| category := "WordPress.com Recommendations"; icon := "⚡"; priority := "high";
       items :=
         [ {| text := "Consider WordPress.com hosting for reliable performance and security";
              source := "WordPress.com benefits" |};
           {| text := "WordPress.com sites are optimized for speed and SEO out of the box";
              source := "Platform optimization" |} ] |} ].

(** The [imgMatches.forEach] loop: [imagesWithoutAlt++] for every matched
    tag whose text does not hold [alt=]. *)
Definition countTagsWithoutAlt (imgMatches : list string) : nat :=
  fold_left
    (fun imagesWithoutAlt img =>
       if negb (JS.includes img "alt=") then S imagesWithoutAlt else imagesWithoutAlt)
    imgMatches 0.

Section Analysis.

(** Line 204 of the file breaks off inside the string literal of the last
    e-commerce test, [htmlLower.includes('], and lines 205-300 repeat the
    tail of the function in its place; the statement resumes at line 302.
    The function is read as lines 97-204 followed by lines 302-429, and the
    lost needle is a parameter. *)
Variable lostNeedle : string.

(** [analyzeHTML(html, url, loadTime)] *)
Definition analyzeHTML (html url : string) (loadTime : Z) : list OutputGroup :=
  let results : list OutputGroup := [] in
  let seoIssues : list AdvisoryItem := [] in
  let performanceIssues : list AdvisoryItem := [] in
  let wpIssues : list AdvisoryItem := [] in
  let uxIssues : list AdvisoryItem := [] in
  let accessibilityIssues : list AdvisoryItem := [] in
  let htmlLower := JS.toLowerCase html in
  (* Check for HTTPS *)
  let seoIssues :=
    if negb (JS.startsWith url "https://")
    then (seoIssues ++ [useHttps])%list else seoIssues in
  (* Check for title tag *)
  let titleMatch := RegExp.matchTitle html in
  let seoIssues :=
    match titleMatch with
    | None => (seoIssues ++ [missingTitle])%list
    | Some capture =>
        let title := JS.trim capture in
        if 60 <? String.length title
        then (seoIssues ++ [titleTooLong (String.length title)])%list
        else if String.length title <? 30
        then (seoIssues ++ [titleTooShort])%list
        else seoIssues
    end in
  (* Check for meta description *)
  let seoIssues :=
    if negb (JS.includes htmlLower ("name=" ++ quoted "description"))
    then (seoIssues ++ [missingMetaDescription])%list else seoIssues in
  (* Check for images without alt text *)
  let imgMatches := RegExp.matchAllOpenTags "img" html in
  let imagesWithoutAlt := countTagsWithoutAlt imgMatches in
  let accessibilityIssues :=
    if 0 <? imagesWithoutAlt
    then (accessibilityIssues ++ [imagesWithoutAltText imagesWithoutAlt])%list
    else accessibilityIssues in
  (* Check for H1 tags *)
  let h1Matches := RegExp.matchAllOpenTags "h1" html in
  let seoIssues :=
    if List.length h1Matches =? 0 then (seoIssues ++ [noH1])%list
    else if 1 <? List.length h1Matches
    then (seoIssues ++ [multipleH1 (List.length h1Matches)])%list
    else seoIssues in
  (* Check for WordPress *)
  let isWordPress :=
    JS.includes htmlLower "wp-content"
    || JS.includes htmlLower "wordpress"
    || JS.includes htmlLower "wp-includes" in
  let wpIssues :=
    if isWordPress then
      let wpIssues := (wpIssues ++ [wordPressDetected])%list in
      let hasCustomTheme :=
        JS.includes htmlLower "wp-content/themes/"
        && negb (JS.includes htmlLower "twentytwenty")
        && negb (JS.includes htmlLower "twentynineteen")
        && negb (JS.includes htmlLower "twentyeighteen") in
      let hasPlugins := JS.includes htmlLower "wp-content/plugins/" in
      let hasJetpack := JS.includes htmlLower "jetpack" in
      let hasEcommerce :=
        JS.includes htmlLower "shop"
        || JS.includes htmlLower "buy"
        || JS.includes htmlLower "cart"
        || JS.includes htmlLower "product"
        || JS.includes htmlLower "store"
        || JS.includes htmlLower "price"
        || JS.includes htmlLower lostNeedle in
      let wpIssues :=
        if negb hasCustomTheme && negb hasPlugins
        then (wpIssues ++ [businessPlan])%list else wpIssues in
      let wpIssues :=
        if hasEcommerce && negb (JS.includes htmlLower "woocommerce")
        then (wpIssues ++ [wooCommerce])%list else wpIssues in
      let wpIssues :=
        if negb hasJetpack
        then (wpIssues ++ [installJetpack])%list else wpIssues in
      (wpIssues ++ [optimizeImages])%list
    else (wpIssues ++ [migrate])%list in
  (* Performance check *)
  let performanceIssues :=
    if (3000 <? loadTime)%Z
    then (performanceIssues ++ [slowLoad loadTime])%list
    else performanceIssues in
  (* Check for Open Graph tags *)
  let seoIssues :=
    if negb (JS.includes htmlLower ("property=" ++ quoted "og:title"))
    then (seoIssues ++ [missingOpenGraph])%list else seoIssues in
  (* Check for viewport meta tag *)
  let uxIssues :=
    if negb (JS.includes htmlLower ("name=" ++ quoted "viewport"))
    then (uxIssues ++ [missingViewport])%list else uxIssues in
  (* Check for contact info *)
  let uxIssues :=
    if negb (JS.includes htmlLower "contact")
       && negb (JS.includes htmlLower "@")
       && negb (JS.includes htmlLower "email")
    then (uxIssues ++ [noContactInformation])%list else uxIssues in
  (* Add some general recommendations if categories are empty *)
  let performanceIssues :=
    if List.length performanceIssues =? 0
    then (performanceIssues ++ [genericPerformance])%list
    else performanceIssues in
  let uxIssues :=
    if List.length uxIssues =? 0
    then (uxIssues ++ [genericUx])%list else uxIssues in
  (* Compile results *)
  let results :=
    if 0 <? List.length seoIssues
    then (results ++ [ {| category := "SEO Optimization"; icon := "🔍";
                          priority := "high"; items := seoIssues |} ])%list
    else results in
  let results :=
    if 0 <? List.length wpIssues
    then (results ++ [ {| category := "WordPress.com Specific"; icon := "⚡";
                          priority := "high"; items := wpIssues |} ])%list
    else results in
  let results :=
    if 0 <? List.length performanceIssues
    then (results ++ [ {| category := "Performance"; icon := "🚀";
                          priority := "medium"; items := performanceIssues |} ])%list
    else results in
  let results :=
    if 0 <? List.length uxIssues
    then (results ++ [ {| category := "User Experience"; icon := "👤";
                          priority := "medium"; items := uxIssues |} ])%list
    else results in
  let results :=
    if 0 <? List.length accessibilityIssues
    then (results ++ [ {| category := "Accessibility"; icon := "♿";
                          priority := "low"; items := accessibilityIssues |} ])%list
    else results in
  results.

(** The inner [catch]: log, answer with the fallback groups. *)
Definition fetchError (targetUrl message : string) : IO Response :=
  consoleLog "Fetch error:" message ;;;
  ret (respond 200 (ResultJson targetUrl fallbackResults)).

(** [handler(req, res)] *)
Definition handler (net : Net) (elapsed : Z) (req : Request) : IO Response :=
  if (method req =? "OPTIONS")%string then ret (respond 200 NoBody)
  else if negb (method req =? "POST")%string
  then ret (respond 405 (ErrorJson "Method not allowed"))
  else
    match body req with
    | None =>
        serverError
          "TypeError: Cannot destructure property 'url' of 'req.body' as it is undefined."
    | Some JUndefined | Some (JOther false) =>
        ret (respond 400 (ErrorJson "URL is required"))
    | Some (JOther true) =>
        serverError "TypeError: targetUrl.startsWith is not a function"
    | Some (JString url) =>
        if negb (truthyString url) then ret (respond 400 (ErrorJson "URL is required"))
        else
          (* Ensure URL has protocol *)
          let targetUrl := url in
          let targetUrl :=
            if negb (JS.startsWith targetUrl "http://")
               && negb (JS.startsWith targetUrl "https://")
            then "https://" ++ targetUrl else targetUrl in
          consoleLog "Analyzing:" targetUrl ;;;
          match net targetUrl with
          | Replied code html =>
              if negb (isSuccess code)
              then fetchError targetUrl ("HTTP " ++ JS.numToString code)
              else
                let loadTime := elapsed in
                let results := analyzeHTML html targetUrl loadTime in
                ret (respond 200 (ResultJson targetUrl results))
          | Failed message => fetchError targetUrl message
          end
    end.

End Analysis.

End RegexVariant.

(** ** Vocabulary of the statements *)

(** What a response reports back. *)
Definition urlField (r : Response) : option string :=
  match payload r with ResultJson u _ => Some u | _ => None end.
Definition improvementsOf (r : Response) : list OutputGroup :=
  match payload r with ResultJson _ groups => groups | _ => [] end.

(** A POST request whose body is [{ url }]. *)
Definition post (u : string) : Request :=
  {| method := "POST"; body := Some (JString u) |}.

(** The page fetch fails: no reply, or a reply outside the success range. *)
Definition fetchFails (net : Net) (target : string) : bool :=
  match net target with
  | Failed _ => true
  | Replied code _ => negb (isSuccess code)
  end.

(** The category labels of the six analysis groups. *)
Definition analysisCategories : list string :=
  [ "SEO Optimization"; "WordPress.com Specific"; "Performance";
    "User Experience"; "Content & Structure"; "Accessibility" ].

(** The presenter's table as the specification gives it: one row per
    bucket, in the order of emission. *)
Definition specTable (b : Improvements) : list OutputGroup :=
  [ {| category := "SEO Optimization"; icon := "🔍"; priority := "high"; items := seo b |};
    {| category := "WordPress.com Specific"; icon := "⚡"; priority := "high"; items := wordpress b |};
    {| category := "Performance"; icon := "🚀"; priority := "medium"; items := performance b |};
    {| category := "User Experience"; icon := "👤"; priority := "medium"; items := ux b |};
    {| category := "Content & Structure"; icon := "✍️"; priority := "medium"; items := content b |};
    {| category := "Accessibility"; icon := "♿"; priority := "low"; items := accessibility b |} ].

Definition nonEmptyGroup (g : OutputGroup) : bool :=
  match items g with [] => false | _ :: _ => true end.

(** The title the analysis looks at, and the three ways it can fire. *)
Definition titleOf (doc : Cheerio.Document) : string :=
  DomVariant.safeText (Cheerio.text (doc "title")).
Definition firesMissingTitle (b : Improvements) : Prop := In missingTitle (seo b).
Definition firesTitleTooLong (b : Improvements) : Prop :=
  exists n, In (titleTooLong n) (seo b).
Definition firesTitleTooShort (b : Improvements) : Prop := In titleTooShort (seo b).

(** The two UX checks, as the conditions under which they push. *)
Definition viewportCheckFires (doc : Cheerio.Document) : bool :=
  negb (truthy (Cheerio.attr (doc ("meta[name=" ++ quoted "viewport" ++ "]")) "content")).
Definition contactCheckFires (html : string) : bool :=
  negb (JS.includes (JS.toLowerCase html) "contact")
  && negb (JS.includes (JS.toLowerCase html) "email")
  && negb (JS.includes (JS.toLowerCase html) "@").

(** The images that lack the [alt] attribute itself. *)
Definition lacksAltAttribute (img : Cheerio.Element) : bool :=
  match Cheerio.getAttribute "alt" (Cheerio.attribs img) with
  | None => true
  | Some _ => false
  end.
(** The images the loop counts: no [alt], or an empty one. *)
Definition lacksAltText (img : Cheerio.Element) : bool :=
  negb (truthy (Cheerio.getAttribute "alt" (Cheerio.attribs img))).

(** The WordPress test of [analyzeHTML]. *)
Definition detectedByText (html : string) : bool :=
  JS.includes (JS.toLowerCase html) "wp-content"
  || JS.includes (JS.toLowerCase html) "wordpress"
  || JS.includes (JS.toLowerCase html) "wp-includes".

(** The group of a given category in a list of groups. *)
Definition groupsNamed (name : string) (groups : list OutputGroup) : list OutputGroup :=
  filter (fun g => (category g =? name)%string) groups.

(** ** Fixtures *)

(** A loaded document given as a table from selectors to selections. *)
Fixpoint tableDocument (table : list (string * Cheerio.Selection)) : Cheerio.Document :=
  fun selector =>
    match table with
    | [] => []
    | (k, sel) :: rest =>
        if (k =? selector)%string then sel else tableDocument rest selector
    end.

(** A parser that finds nothing, whatever the text. *)
Definition blankLoad : string -> Cheerio.Document := fun _ => tableDocument [].

(** A parser that finds the given table, whatever the text. *)
Definition fixedLoad (table : list (string * Cheerio.Selection)) : string -> Cheerio.Document :=
  fun _ => tableDocument table.

Definition element (attrs : list (string * string)) (txt : string) : Cheerio.Element :=
  {| Cheerio.attribs := attrs; Cheerio.textContent := txt |}.

(** A network on which every request times out. *)
Definition deadNet : Net := fun _ => Failed "timeout of 10000ms exceeded".

(** A network on which every page is the given text. *)
Definition staticNet (html : string) : Net := fun _ => Replied 200 html.

(** The JSON pages of the examples, each with the value that [JSON.parse]
    makes of it. *)
Definition jsonPages : list (string * JSON.value) :=
  [ ("{" ++ quoted "a" ++ ":1}", JSON.Object [("a", JSON.Number "1")]);
    ("[" ++ quoted "wp-content" ++ "]", JSON.Array [JSON.Str "wp-content"]);
    ("[]", JSON.Array []) ].

(** axios on the pages of the examples: a JSON page of the table is handed
    over parsed, any other text as it is. *)
Fixpoint pageData (pages : list (string * JSON.value)) (text : string) : JSON.value :=
  match pages with
  | [] => JSON.Str text
  | (page, v) :: rest => if (page =? text)%string then v else pageData rest text
  end.

(** cheerio handed a value of the examples: an object, or an array of
    objects, goes under a new root in which no selector matches; a
    primitive cannot be linked into the tree. *)
Definition wrapValue (v : JSON.value) : Cheerio.Document + string :=
  let isNode := fun e => match e with JSON.Object _ => true | _ => false end in
  match v with
  | JSON.Object _ => inl (tableDocument [])
  | JSON.Array elements =>
      if forallb isNode elements then inl (tableDocument [])
      else inr "Cannot create property 'prev' on a primitive"
  | JSON.Null => inr "Cannot read properties of null (reading 'type')"
  | _ => inr "Cannot create property 'prev' on a primitive"
  end.

(** The libraries of the examples around a given parser. *)
Definition libraries (load : string -> Cheerio.Document) : Libraries :=
  {| axiosData := pageData jsonPages; cheerioLoad := load;
     cheerioLoadValue := wrapValue |}.

(** The advisories the title check, the theme check and the Jetpack check
    leave in their buckets. *)
Definition titleAdvisories (title : string) : list AdvisoryItem :=
  if negb (truthyString title) then [missingTitle]
  else if 60 <? String.length title then [titleTooLong (String.length title)]
  else if String.length title <? 30 then [titleTooShort]
  else [].
Definition themeAdvisories (html : string) : list AdvisoryItem :=
  if JS.includes html "wp-content/themes/"
  then match RegExp.matchTheme html with
       | Some name => [usingTheme name]
       | None => []
       end
  else [].
Definition jetpackAdvisories (html : string) : list AdvisoryItem :=
  if negb (JS.includes html "jetpack") then [installJetpack] else [].

(** What the other SEO checks leave, for the full reading of the bucket. *)
Definition metaDescriptionAdvisories (metaDesc : option string) : list AdvisoryItem :=
  match metaDesc with
  | None => [missingMetaDescription]
  | Some metaDesc =>
      if negb (truthyString metaDesc) then [missingMetaDescription]
      else if 160 <? String.length metaDesc
           then [metaDescriptionTooLong (String.length metaDesc)]
      else []
  end.
Definition h1Advisories (h1Count : nat) : list AdvisoryItem :=
  if h1Count =? 0 then [noH1]
  else if 1 <? h1Count then [multipleH1 h1Count]
  else [].
Definition openGraphAdvisories (doc : Cheerio.Document) : list AdvisoryItem :=
  if negb (truthy (Cheerio.attr (doc ("meta[property=" ++ quoted "og:title" ++ "]")) "content"))
     || negb (truthy (Cheerio.attr (doc ("meta[property=" ++ quoted "og:description" ++ "]")) "content"))
  then [missingOpenGraph] else [].
Definition structuredDataAdvisories (html : string) (doc : Cheerio.Document) : list AdvisoryItem :=
  if negb (JS.includes html "schema.org")
     && (List.length (doc ("script[type=" ++ quoted "application/ld+json" ++ "]")) =? 0)
  then [noStructuredData] else [].

(** The buckets the [catch] of [analyzeWebsite] leaves when nothing was
    pushed before it, and the groups the presenter makes of them. *)
Definition failureBuckets : Improvements :=
  DomVariant.push_wordpress considerHosting
    (DomVariant.push_seo unableToAnalyze DomVariant.emptyResults).
Definition failureGroups : list OutputGroup :=
  [ {| category := "SEO Optimization"; icon := "🔍"; priority := "high";
       items := [unableToAnalyze] |};
    {| category := "WordPress.com Specific"; icon := "⚡"; priority := "high";
       items := [considerHosting] |} ].

(** What the analysis leaves in the buckets, whatever was printed. *)
Definition bucketsOf (lib : Libraries) (net : Net) (elapsed : Z) (target : string)
    : Improvements :=
  fst (DomVariant.analyzeWebsite lib net elapsed target []).

(** ** The checks on a value that is not a string *)

(** The three tests of the WordPress block when [html] is an array. *)
Definition detectedInArray (doc : Cheerio.Document) (elements : list JSON.value) : bool :=
  JSON.arrayIncludes elements "wp-content"
  || JSON.arrayIncludes elements "wordpress"
  || match Cheerio.attr (doc ("meta[name=" ++ quoted "generator" ++ "]")) "content" with
     | Some c => JS.includes c "WordPress"
     | None => false
     end.

(** The checks go on after the WordPress block: [html] has [includes], and
    [html.match] is not called. *)
Definition passesWordPressBlock (doc : Cheerio.Document) (html : JSON.value) : bool :=
  match html with
  | JSON.Array elements =>
      negb (detectedInArray doc elements
            && JSON.arrayIncludes elements "wp-content/themes/")
  | _ => false
  end.

(** The SEO advisories of the checks that stand before the WordPress
    block. *)
Definition documentSeo (doc : Cheerio.Document) (url : string) : list AdvisoryItem :=
  ((if negb (JS.startsWith url "https://") then [useHttps] else [])
   ++ (if 60 <? String.length url then [urlTooLong] else [])
   ++ titleAdvisories (titleOf doc)
   ++ metaDescriptionAdvisories
        (Cheerio.attr (doc ("meta[name=" ++ quoted "description" ++ "]")%string) "content")
   ++ h1Advisories (List.length (doc "h1")))%list.

(** What the [try] had pushed when it threw on such a value. *)
Definition pushedBeforeThrow (lib : Libraries) (url : string) (html : JSON.value)
    (loadTime : Z) : Improvements :=
  match cheerioLoadValue lib html with
  | inr _ => DomVariant.emptyResults
  | inl doc => fst (DomVariant.runChecksOnValue doc url html loadTime)
  end.

(** What [analyzeHTML] pushes for a detected site between "WordPress site
    detected" and "Optimize images". *)
Definition planAdvisories (needle html : string) : list AdvisoryItem :=
  let htmlLower := JS.toLowerCase html in
  let hasCustomTheme :=
    JS.includes htmlLower "wp-content/themes/"
    && negb (JS.includes htmlLower "twentytwenty")
    && negb (JS.includes htmlLower "twentynineteen")
    && negb (JS.includes htmlLower "twentyeighteen") in
  let hasPlugins := JS.includes htmlLower "wp-content/plugins/" in
  let hasJetpack := JS.includes htmlLower "jetpack" in
  let hasEcommerce :=
    JS.includes htmlLower "shop"
    || JS.includes htmlLower "buy"
    || JS.includes htmlLower "cart"
    || JS.includes htmlLower "product"
    || JS.includes htmlLower "store"
    || JS.includes htmlLower "price"
    || JS.includes htmlLower needle in
  ((if negb hasCustomTheme && negb hasPlugins then [businessPlan] else [])
   ++ (if hasEcommerce && negb (JS.includes htmlLower "woocommerce")
       then [wooCommerce] else [])
   ++ (if negb hasJetpack then [installJetpack] else []))%list.

(** A test holds on [count] consecutive integers from [start] on. *)
Fixpoint allFrom (test : Z -> bool) (start : Z) (count : nat) : bool :=
  match count with
  | O => true
  | S k => test start && allFrom test (start + 1)%Z k
  end.

(** The tenths of a second that [toFixed(1)] prints for [ms] milliseconds
    are [ms / 100] rounded to the nearest integer, and at least 30. *)
Definition printsNearestTenth (ms : Z) : bool :=
  let n := JS.nearestTenths (JS.divideBy1000 ms) in
  (Z.abs (100 * n - ms) <=? 50)%Z && (30 <=? n)%Z.

(** A string of white space only. *)
Fixpoint allWhiteSpace (s : string) : bool :=
  match s with
  | EmptyString => true
  | String c s' => JS.isWhiteSpace c && allWhiteSpace s'
  end.

(** The sources that only the three title advisories cite. *)
Definition citesTitleCheck (x : AdvisoryItem) : bool :=
  (source x =? "Google SEO guidelines")%string
  || (source x =? "Google SERP optimization")%string
  || (source x =? "SEO title optimization")%string.

Arguments DomVariant.runChecks : simpl never.
Arguments DomVariant.runChecksOnValue : simpl never.
Arguments RegexVariant.analyzeHTML : simpl never.

(** * Proofs *)

(** ** Conditionals and projections *)

Lemma proj_if {A B} (f : A -> B) (c : bool) x y :
  f (if c then x else y) = if c then f x else f y.
Proof. destruct c; reflexivity. Qed.

Lemma if_same {A} (c : bool) (x : A) : (if c then x else x) = x.
Proof. destruct c; reflexivity. Qed.

Lemma if_app_then {A} (c : bool) (l a : list A) :
  (if c then (l ++ a)%list else l) = (l ++ (if c then a else []))%list.
Proof. destruct c; [reflexivity | now rewrite app_nil_r]. Qed.

Lemma if_app_else {A} (c : bool) (l b : list A) :
  (if c then l else (l ++ b)%list) = (l ++ (if c then [] else b))%list.
Proof. destruct c; [now rewrite app_nil_r | reflexivity]. Qed.

Lemma if_app_both {A} (c : bool) (l a b : list A) :
  (if c then (l ++ a)%list else (l ++ b)%list) = (l ++ (if c then a else b))%list.
Proof. destruct c; reflexivity. Qed.

(** ** Reading [runChecks] one bucket at a time

    The body is a chain of steps applied to [results].  A projection is
    moved through the chain from its end, one step at a time, so that the
    steps that push elsewhere drop out. *)

Lemma proj_step {B} (f : Improvements -> B) (c : bool)
    (g h : Improvements -> Improvements) (r : Improvements) :
  f ((if c then g else h) r) = if c then f (g r) else f (h r).
Proof. destruct c; reflexivity. Qed.

Ltac read_step proj :=
  first
    [ rewrite (proj_step proj)
    | match goal with
      | |- context [proj (match ?o with Some _ => _ | None => _ end _)] => destruct o
      end ];
  cbv beta zeta;
  cbn [seo performance wordpress ux accessibility content
       DomVariant.push_seo DomVariant.push_performance DomVariant.push_wordpress
       DomVariant.push_ux DomVariant.push_accessibility DomVariant.push_content
       DomVariant.emptyResults];
  rewrite ?if_same, ?if_app_then, ?if_app_else, ?if_app_both.

Ltac read_bucket proj :=
  intros; cbv delta [DomVariant.runChecks DomVariant.unchanged]; cbv beta zeta;
  repeat read_step proj.

Lemma wordpress_runChecks load url html loadTime :
  wordpress (DomVariant.runChecks load url html loadTime) =
  if DomVariant.isWordPress html (load html)
  then (wordPressDetected :: themeAdvisories html
          ++ jetpackAdvisories html ++ [optimizeImages])%list
  else [].
Proof.
  unfold themeAdvisories, jetpackAdvisories.
  read_bucket wordpress;
    destruct (DomVariant.isWordPress html (load html)); try reflexivity;
    cbn [app]; now rewrite <- app_assoc.
Qed.

Lemma performance_runChecks load url html loadTime :
  performance (DomVariant.runChecks load url html loadTime) =
  if (3000 <? loadTime)%Z then [slowLoad loadTime] else [genericPerformance].
Proof.
  read_bucket performance; destruct (3000 <? loadTime)%Z; reflexivity.
Qed.

Lemma ux_runChecks load url html loadTime :
  ux (DomVariant.runChecks load url html loadTime) =
  ((if contactCheckFires html then [noContactInformation] else [])
   ++ (if viewportCheckFires (load html) then [missingViewport] else [])
   ++ (if negb (contactCheckFires html) && negb (viewportCheckFires (load html))
       then [genericUx] else []))%list.
Proof.
  unfold contactCheckFires, viewportCheckFires.
  read_bucket ux;
    repeat match goal with
    | |- context [if ?c then [noContactInformation] else []] => destruct c
    | |- context [if ?c then [missingViewport] else []] => destruct c
    end; reflexivity.
Qed.

Lemma accessibility_runChecks load url html loadTime :
  accessibility (DomVariant.runChecks load url html loadTime) =
  if 0 <? DomVariant.countImagesWithoutAlt (load html "img")
  then [imagesWithoutAltText (DomVariant.countImagesWithoutAlt (load html "img"))]
  else [].
Proof. read_bucket accessibility; reflexivity. Qed.

Lemma content_runChecks load url html loadTime :
  content (DomVariant.runChecks load url html loadTime) =
  if JS.splitWhitespaceLength (Cheerio.text (load html "body")) <? 300
  then [limitedContent] else [].
Proof. read_bucket content; reflexivity. Qed.

Lemma seo_runChecks load url html loadTime :
  seo (DomVariant.runChecks load url html loadTime) =
  ((if negb (JS.startsWith url "https://") then [useHttps] else [])
   ++ (if 60 <? String.length url then [urlTooLong] else [])
   ++ titleAdvisories (titleOf (load html))
   ++ metaDescriptionAdvisories
        (Cheerio.attr (load html ("meta[name=" ++ quoted "description" ++ "]")%string) "content")
   ++ h1Advisories (List.length (load html "h1"))
   ++ openGraphAdvisories (load html)
   ++ structuredDataAdvisories html (load html))%list.
Proof.
  unfold titleAdvisories, titleOf, metaDescriptionAdvisories, h1Advisories,
    openGraphAdvisories, structuredDataAdvisories.
  read_bucket seo; cbn [app]; now rewrite <- !app_assoc.
Qed.

(** ** The handlers on a POST with a URL string *)

Lemma analyzeWebsite_buckets lib net elapsed target c :
  fst (DomVariant.analyzeWebsite lib net elapsed target c) =
  bucketsOf lib net elapsed target.
Proof.
  unfold bucketsOf, DomVariant.analyzeWebsite, DomVariant.analysisError,
    bind, consoleLog, ret.
  destruct (net target) as [code data | message]; [| reflexivity].
  destruct (isSuccess code); [| reflexivity].
  destruct (axiosData lib data) as [| b | n | s | l | l] eqn:E; try reflexivity;
    match goal with
    | |- context [cheerioLoadValue lib ?v] =>
        destruct (cheerioLoadValue lib v) as [doc | m]; [| reflexivity];
        destruct (DomVariant.runChecksOnValue doc target v elapsed) as [r [m |]];
        reflexivity
    end.
Qed.

(** A fetch that fails leaves the two advisories of the [catch]. *)
Lemma bucketsOf_failure lib net elapsed target :
  fetchFails net target = true ->
  bucketsOf lib net elapsed target = failureBuckets.
Proof.
  unfold fetchFails, bucketsOf, DomVariant.analyzeWebsite. intros H.
  destruct (net target) as [code data | message]; [| reflexivity].
  apply negb_true_iff in H. rewrite H. reflexivity.
Qed.

(** A page that axios hands over as a string goes through every check. *)
Lemma bucketsOf_text lib net elapsed target code data html :
  net target = Replied code data -> isSuccess code = true ->
  axiosData lib data = JSON.Str html ->
  bucketsOf lib net elapsed target
  = DomVariant.runChecks (cheerioLoad lib) target html elapsed.
Proof.
  intros Hnet Hok Hdata.
  unfold bucketsOf, DomVariant.analyzeWebsite. rewrite Hnet, Hok, Hdata.
  reflexivity.
Qed.

Lemma dom_handler_post lib net elapsed u c :
  truthyString u = true ->
  fst (DomVariant.handler lib net elapsed (post u) c) =
  respond 200 (ResultJson (ensureProtocol u)
                 (DomVariant.compileResults
                    (bucketsOf lib net elapsed (ensureProtocol u)))).
Proof.
  intros Hu. unfold DomVariant.handler, post; cbn [method body].
  change ("POST" =? "OPTIONS")%string with false.
  change ("POST" =? "POST")%string with true.
  cbn [negb]. rewrite Hu. cbn [negb].
  fold (ensureProtocol u).
  unfold bind, consoleLog, ret.
  match goal with
  | |- context [DomVariant.analyzeWebsite ?l ?n ?e ?t ?k] =>
      rewrite <- (analyzeWebsite_buckets l n e t k);
      destruct (DomVariant.analyzeWebsite l n e t k)
  end.
  reflexivity.
Qed.

Lemma handlers_post_empty needle lib net elapsed c :
  fst (DomVariant.handler lib net elapsed (post EmptyString) c)
    = respond 400 (ErrorJson "URL is required")
  /\ fst (RegexVariant.handler needle net elapsed (post EmptyString) c)
    = respond 400 (ErrorJson "URL is required").
Proof. split; reflexivity. Qed.

Lemma regex_handler_post needle net elapsed u c :
  truthyString u = true ->
  fst (RegexVariant.handler needle net elapsed (post u) c) =
  respond 200 (ResultJson (ensureProtocol u)
                 (match net (ensureProtocol u) with
                  | Replied code html =>
                      if isSuccess code
                      then RegexVariant.analyzeHTML needle html (ensureProtocol u) elapsed
                      else RegexVariant.fallbackResults
                  | Failed _ => RegexVariant.fallbackResults
                  end)).
Proof.
  intros Hu. unfold RegexVariant.handler, post; cbn [method body].
  change ("POST" =? "OPTIONS")%string with false.
  change ("POST" =? "POST")%string with true.
  cbn [negb]. rewrite Hu. cbn [negb].
  fold (ensureProtocol u).
  unfold bind, consoleLog, ret, RegexVariant.fetchError.
  destruct (net (ensureProtocol u)) as [code html | message];
    [destruct (isSuccess code) |]; reflexivity.
Qed.

Lemma compileResults_filter b :
  DomVariant.compileResults b = filter nonEmptyGroup (specTable b).
Proof.
  destruct b as [s p w u a c]; destruct s, p, w, u, a, c; reflexivity.
Qed.

Lemma compileResults_nonempty b g :
  In g (DomVariant.compileResults b) -> items g <> [].
Proof.
  rewrite compileResults_filter, filter_In. intros [_ H].
  unfold nonEmptyGroup in H. destruct (items g); [discriminate | discriminate].
Qed.

(** ** The presenter *)

(** C6: the presenter emits the rows of the fixed table (SEO Optimization,
    WordPress.com Specific, Performance, User Experience, Content &
    Structure, Accessibility, with their icons and priorities) in that
    order, leaves out exactly the rows whose bucket is empty, and the items
    of an emitted group are the bucket as it stands. *)
Theorem C6_presenter_table (b : Improvements) :
  DomVariant.compileResults b = filter nonEmptyGroup (specTable b)
  /\ map (fun g => (category g, icon g, priority g)) (specTable b)
     = [ ("SEO Optimization", "🔍", "high");
         ("WordPress.com Specific", "⚡", "high");
         ("Performance", "🚀", "medium");
         ("User Experience", "👤", "medium");
         ("Content & Structure", "✍️", "medium");
         ("Accessibility", "♿", "low") ]
  /\ map items (specTable b)
     = [ seo b; wordpress b; performance b; ux b; content b; accessibility b ]
  /\ (forall g, In g (DomVariant.compileResults b) -> items g <> []).
Proof.
  split; [apply compileResults_filter |].
  split; [reflexivity |].
  split; [reflexivity |].
  intros g; apply compileResults_nonempty.
Qed.

(** ** Determinism *)

(** C8: two runs of the endpoint on the same URL, the same reply text and
    the same load time answer with the same body, whatever the console held
    before each run, whatever success status came with the text, and
    whatever else the network would have served; a second run started from
    the console the first one left answers as the first one did.  This
    holds for a reply that axios parses as JSON too; for a text that it
    hands over as a string the groups are those of the checks on that
    string. *)
Theorem C8_same_inputs_same_output
    (lib : Libraries) (net1 net2 : Net) (elapsed : Z)
    (u data : string) (code1 code2 : nat) (c1 c2 : Console) :
  net1 (ensureProtocol u) = Replied code1 data -> isSuccess code1 = true ->
  net2 (ensureProtocol u) = Replied code2 data -> isSuccess code2 = true ->
  payload (fst (DomVariant.handler lib net1 elapsed (post u) c1))
    = payload (fst (DomVariant.handler lib net2 elapsed (post u) c2))
  /\ payload (fst (DomVariant.handler lib net1 elapsed (post u)
                     (snd (DomVariant.handler lib net1 elapsed (post u) c1))))
     = payload (fst (DomVariant.handler lib net1 elapsed (post u) c1))
  /\ (truthyString u = true ->
      forall html, axiosData lib data = JSON.Str html ->
      improvementsOf (fst (DomVariant.handler lib net1 elapsed (post u) c1))
      = DomVariant.compileResults
          (DomVariant.runChecks (cheerioLoad lib) (ensureProtocol u) html elapsed)).
Proof.
  intros H1 S1 H2 S2.
  destruct (truthyString u) eqn:Hu.
  - rewrite !dom_handler_post by assumption.
    assert (E : bucketsOf lib net1 elapsed (ensureProtocol u)
                = bucketsOf lib net2 elapsed (ensureProtocol u)).
    { unfold bucketsOf, DomVariant.analyzeWebsite. rewrite H1, H2, S1, S2.
      reflexivity. }
    rewrite E. split; [reflexivity |]. split; [reflexivity |].
    intros _ html Hdata.
    rewrite <- E, (bucketsOf_text lib net1 elapsed _ code1 data html H1 S1 Hdata).
    reflexivity.
  - assert (u = EmptyString) as ->.
    { unfold truthyString in Hu. apply negb_false_iff, String.eqb_eq in Hu.
      exact Hu. }
    repeat split; discriminate.
Qed.

Lemma C8_same_inputs_same_output_witness :
  payload (fst (DomVariant.handler (libraries blankLoad) (staticNet "<h1>contact</h1>")
                  3250 (post "example.com") []))
  = payload (fst (DomVariant.handler (libraries blankLoad)
                    (fun _ => Replied 204 "<h1>contact</h1>")
                    3250 (post "example.com") ["Analyzing: https://other.example"])).
Proof.
  exact (proj1 (C8_same_inputs_same_output (libraries blankLoad)
                  (staticNet "<h1>contact</h1>")
                  (fun _ => Replied 204 "<h1>contact</h1>") 3250 "example.com"
                  "<h1>contact</h1>" 200 204 [] ["Analyzing: https://other.example"]
                  eq_refl eq_refl eq_refl eq_refl)).
Defined.

(** ** URL normalisation *)

(** C7: on a POST whose URL string starts with neither [http://] nor
    [https://], a URL reported back is [https://] followed by the input; a
    URL that has either prefix is reported back unchanged.  Both handlers
    report a URL, with status 200, for every non-empty input; the empty
    string is answered as a missing URL, with status 400 and no URL. *)
Theorem C7_reported_url
    (needle : string) (lib : Libraries) (net : Net)
    (elapsed : Z) (u : string) (c : Console) :
  let r1 := fst (RegexVariant.handler needle net elapsed (post u) c) in
  let r2 := fst (DomVariant.handler lib net elapsed (post u) c) in
  (JS.startsWith u "http://" = false -> JS.startsWith u "https://" = false ->
   forall r v, (r = r1 \/ r = r2) -> urlField r = Some v -> v = "https://" ++ u)
  /\ (JS.startsWith u "http://" = true \/ JS.startsWith u "https://" = true ->
      forall r v, (r = r1 \/ r = r2) -> urlField r = Some v -> v = u)
  /\ (u <> EmptyString ->
      forall r, (r = r1 \/ r = r2) ->
      status r = 200 /\ urlField r = Some (ensureProtocol u))
  /\ (u = EmptyString ->
      forall r, (r = r1 \/ r = r2) -> status r = 400 /\ urlField r = None).
Proof.
  intros r1 r2.
  assert (Hne : u <> EmptyString ->
            forall r, (r = r1 \/ r = r2) ->
            status r = 200 /\ urlField r = Some (ensureProtocol u)).
  { intros Hu r Hr.
    assert (truthyString u = true) as Ht.
    { unfold truthyString. apply negb_true_iff, String.eqb_neq. exact Hu. }
    destruct Hr as [-> | ->]; subst r1 r2.
    - rewrite regex_handler_post by exact Ht. split; reflexivity.
    - rewrite dom_handler_post by exact Ht. split; reflexivity. }
  assert (He : u = EmptyString ->
            forall r, (r = r1 \/ r = r2) -> status r = 400 /\ urlField r = None).
  { intros -> r [-> | ->]; subst r1 r2; split; reflexivity. }
  repeat split.
  - intros Hp Hs r v Hr Hv.
    destruct (String.string_dec u EmptyString) as [E | N].
    + destruct (He E r Hr) as [_ Hnone]. congruence.
    + destruct (Hne N r Hr) as [_ Hsome].
      rewrite Hv in Hsome. injection Hsome as ->.
      unfold ensureProtocol. rewrite Hp, Hs. reflexivity.
  - intros Hp r v Hr Hv.
    destruct (String.string_dec u EmptyString) as [E | N].
    + destruct (He E r Hr) as [_ Hnone]. congruence.
    + destruct (Hne N r Hr) as [_ Hsome].
      rewrite Hv in Hsome. injection Hsome as ->.
      unfold ensureProtocol.
      destruct Hp as [Hp | Hp]; rewrite Hp; cbn [negb andb].
      * reflexivity.
      * rewrite andb_false_r. reflexivity.
  - apply Hne; assumption.
  - apply Hne; assumption.
  - apply He; assumption.
  - apply He; assumption.
Qed.

Lemma C7_reported_url_witness :
  urlField (fst (DomVariant.handler (libraries blankLoad) deadNet 0 (post "example.com") []))
    = Some "https://example.com"
  /\ urlField (fst (RegexVariant.handler "$" deadNet 0 (post "http://example.com") []))
    = Some "http://example.com".
Proof.
  split.
  - apply (proj1 (proj2 (proj2 (C7_reported_url "$" (libraries blankLoad) deadNet 0
                                  "example.com" [])))).
    + discriminate.
    + right; reflexivity.
  - apply (proj1 (proj2 (proj2 (C7_reported_url "$" (libraries blankLoad) deadNet 0
                                  "http://example.com" [])))).
    + discriminate.
    + left; reflexivity.
Defined.

(** ** The fallback advisories of the performance and UX buckets *)



(** ** The WordPress bucket *)

(** C4: for a fetched document that contains [wp-content] and does not
    contain [jetpack], the wordpress bucket starts with the "WordPress site
    detected" advisory, holds the "install Jetpack" advisory after it (only
    the theme advisory can stand between them), and ends with the "Optimize
    images" advisory. *)
Theorem C4_detected_then_jetpack
    (load : string -> Cheerio.Document) (url html : string) (loadTime : Z) :
  JS.includes html "wp-content" = true ->
  JS.includes html "jetpack" = false ->
  let bucket := wordpress (DomVariant.runChecks load url html loadTime) in
  bucket = (wordPressDetected :: themeAdvisories html
              ++ [installJetpack; optimizeImages])%list
  /\ (exists between after,
        bucket = (wordPressDetected :: between ++ installJetpack :: after)%list)
  /\ In optimizeImages bucket.
Proof.
  intros Hwp Hjet bucket.
  assert (E : bucket = (wordPressDetected :: themeAdvisories html
                          ++ [installJetpack; optimizeImages])%list).
  { subst bucket. rewrite wordpress_runChecks.
    unfold DomVariant.isWordPress. rewrite Hwp. cbn [orb].
    unfold jetpackAdvisories. rewrite Hjet. reflexivity. }
  split; [exact E |]. split.
  - exists (themeAdvisories html), [optimizeImages]. exact E.
  - rewrite E. right. apply in_or_app. right. right. left. reflexivity.
Qed.

Lemma C4_detected_then_jetpack_witness :
  wordpress (DomVariant.runChecks blankLoad "https://example.com"
               "<link href=/wp-content/themes/astra/style.css>" 900)
  = [wordPressDetected; usingTheme "astra"; installJetpack; optimizeImages].
Proof.
  exact (proj1 (C4_detected_then_jetpack blankLoad "https://example.com"
                  "<link href=/wp-content/themes/astra/style.css>" 900
                  eq_refl eq_refl)).
Defined.

(** ** Groups by name *)

Lemma groupsNamed_skip name (c : bool) l g :
  (category g =? name)%string = false ->
  groupsNamed name (if c then (l ++ [g])%list else l) = groupsNamed name l.
Proof.
  intros H. destruct c; [| reflexivity].
  unfold groupsNamed. rewrite filter_app. cbn [filter]. rewrite H.
  apply app_nil_r.
Qed.

Lemma groupsNamed_hit name (c : bool) l g :
  (category g =? name)%string = true ->
  groupsNamed name (if c then (l ++ [g])%list else l)
  = (groupsNamed name l ++ (if c then [g] else []))%list.
Proof.
  intros H. destruct c; [| now rewrite app_nil_r].
  unfold groupsNamed. rewrite filter_app. cbn [filter]. now rewrite H.
Qed.

Ltac read_groups :=
  cbv delta [RegexVariant.analyzeHTML]; cbv beta zeta;
  repeat first
    [ rewrite groupsNamed_skip by reflexivity
    | rewrite groupsNamed_hit by reflexivity ];
  cbn [groupsNamed filter app].

Lemma analyzeHTML_accessibility_group needle html url loadTime :
  groupsNamed "Accessibility" (RegexVariant.analyzeHTML needle html url loadTime)
  = if 0 <? RegexVariant.countTagsWithoutAlt (RegExp.matchAllOpenTags "img" html)
    then [ {| category := "Accessibility"; icon := "♿"; priority := "low";
              items := [imagesWithoutAltText
                          (RegexVariant.countTagsWithoutAlt
                             (RegExp.matchAllOpenTags "img" html))] |} ]
    else [].
Proof.
  read_groups.
  destruct (0 <? RegexVariant.countTagsWithoutAlt (RegExp.matchAllOpenTags "img" html));
    reflexivity.
Qed.

Lemma analyzeHTML_wordpress_group needle html url loadTime :
  detectedByText html = false ->
  groupsNamed "WordPress.com Specific"
    (RegexVariant.analyzeHTML needle html url loadTime)
  = [ {| category := "WordPress.com Specific"; icon := "⚡"; priority := "high";
         items := [migrate] |} ].
Proof.
  intros H. unfold detectedByText in H.
  read_groups. rewrite H. reflexivity.
Qed.

Lemma compileResults_wordpress_group b :
  wordpress b = [] ->
  groupsNamed "WordPress.com Specific" (DomVariant.compileResults b) = [].
Proof.
  destruct b as [s p w u a c]; cbn [wordpress]; intros ->.
  destruct s, p, u, a, c; reflexivity.
Qed.

Lemma compileResults_accessibility_group b :
  groupsNamed "Accessibility" (DomVariant.compileResults b)
  = match accessibility b with
    | [] => []
    | _ :: _ => [ {| category := "Accessibility"; icon := "♿"; priority := "low";
                     items := accessibility b |} ]
    end.
Proof.
  destruct b as [s p w u a c]; destruct s, p, w, u, a, c; reflexivity.
Qed.

(** ** Fetch failure *)

(** C1, as amended: when the page fetch fails (no reply, or a status outside
    the success range), both handlers answer with status 200 and exactly
    two groups, both of priority high.  The fetch-based handler answers
    with "Site Access" and "WordPress.com Recommendations", none of them an
    analysis group; the cheerio-based handler files its two fallback
    advisories in the seo and wordpress buckets, so its groups are "SEO
    Optimization" and "WordPress.com Specific" with one item each. *)
Theorem C1_fetch_failure_groups
    (needle : string) (lib : Libraries) (net : Net)
    (elapsed : Z) (u : string) (c : Console) :
  u <> EmptyString ->
  fetchFails net (ensureProtocol u) = true ->
  let r1 := fst (RegexVariant.handler needle net elapsed (post u) c) in
  let r2 := fst (DomVariant.handler lib net elapsed (post u) c) in
  status r1 = 200
  /\ improvementsOf r1 = RegexVariant.fallbackResults
  /\ map category (improvementsOf r1)
     = ["Site Access"; "WordPress.com Recommendations"]
  /\ map priority (improvementsOf r1) = ["high"; "high"]
  /\ (forall g, In g (improvementsOf r1) -> ~ In (category g) analysisCategories)
  /\ status r2 = 200
  /\ improvementsOf r2 = failureGroups
  /\ map category (improvementsOf r2)
     = ["SEO Optimization"; "WordPress.com Specific"]
  /\ map priority (improvementsOf r2) = ["high"; "high"].
Proof.
  intros Hu Hfail r1 r2.
  assert (Ht : truthyString u = true).
  { unfold truthyString. apply negb_true_iff, String.eqb_neq. exact Hu. }
  assert (E1 : improvementsOf r1 = RegexVariant.fallbackResults
               /\ status r1 = 200).
  { subst r1. rewrite regex_handler_post by exact Ht.
    unfold fetchFails in Hfail.
    destruct (net (ensureProtocol u)) as [code html | message].
    - apply negb_true_iff in Hfail. rewrite Hfail. split; reflexivity.
    - split; reflexivity. }
  assert (E2 : improvementsOf r2 = failureGroups /\ status r2 = 200).
  { subst r2. rewrite dom_handler_post by exact Ht.
    rewrite (bucketsOf_failure lib net elapsed _ Hfail). split; reflexivity. }
  destruct E1 as [E1 S1], E2 as [E2 S2].
  rewrite E1, E2.
  repeat split; try assumption.
  intros g [<- | [<- | []]] [H | [H | [H | [H | [H | [H | []]]]]]];
    discriminate H.
Qed.

Lemma C1_fetch_failure_groups_witness :
  improvementsOf (fst (RegexVariant.handler "$" deadNet 0 (post "example.com") []))
  = RegexVariant.fallbackResults.
Proof.
  exact (proj1 (proj2 (C1_fetch_failure_groups "$" (libraries blankLoad) deadNet 0 "example.com" []
                         ltac:(discriminate) eq_refl))).
Defined.

(** The claim as stated fails on the cheerio-based handler: on a network
    that times out, the two groups it answers with are analysis groups. *)
Lemma C1_counterexample :
  fetchFails deadNet (ensureProtocol "example.com") = true
  /\ map category
       (improvementsOf (fst (DomVariant.handler (libraries blankLoad) deadNet 0
                               (post "example.com") [])))
     = ["SEO Optimization"; "WordPress.com Specific"]
  /\ map category
       (improvementsOf (fst (DomVariant.handler (libraries blankLoad) deadNet 0
                               (post "example.com") [])))
     <> ["Site Access"; "WordPress.com Recommendations"].
Proof.
  split; [reflexivity |]. split; [reflexivity |]. discriminate.
Qed.

(** ** Documents that are not WordPress *)

(** C2, as amended: for a fetched document that holds neither [wp-content]
    nor [wordpress] and whose generator meta, if any, does not hold
    [WordPress], the cheerio-based analysis leaves the wordpress bucket
    empty: no WordPress advisory, no migration advisory, and no
    "WordPress.com Specific" group.  The single migration advisory is what
    [analyzeHTML] emits, when the lower-cased text holds none of
    [wp-content], [wordpress], [wp-includes]. *)
Theorem C2_not_wordpress
    (needle : string) (load : string -> Cheerio.Document)
    (url html : string) (loadTime : Z) :
  JS.includes html "wp-content" = false ->
  JS.includes html "wordpress" = false ->
  (forall generator,
      Cheerio.attr (load html ("meta[name=" ++ quoted "generator" ++ "]")) "content"
        = Some generator ->
      JS.includes generator "WordPress" = false) ->
  wordpress (DomVariant.runChecks load url html loadTime) = []
  /\ groupsNamed "WordPress.com Specific"
       (DomVariant.compileResults (DomVariant.runChecks load url html loadTime)) = []
  /\ (detectedByText html = false ->
      groupsNamed "WordPress.com Specific"
        (RegexVariant.analyzeHTML needle html url loadTime)
      = [ {| category := "WordPress.com Specific"; icon := "⚡";
             priority := "high"; items := [migrate] |} ]).
Proof.
  intros Hc Hw Hg.
  assert (E : wordpress (DomVariant.runChecks load url html loadTime) = []).
  { rewrite wordpress_runChecks.
    unfold DomVariant.isWordPress. rewrite Hc, Hw. cbn [orb].
    destruct (Cheerio.attr _ "content") as [generator |] eqn:G.
    - rewrite (Hg generator eq_refl). reflexivity.
    - reflexivity. }
  split; [exact E |]. split.
  - apply compileResults_wordpress_group, E.
  - apply analyzeHTML_wordpress_group.
Qed.

Lemma C2_not_wordpress_witness :
  wordpress (DomVariant.runChecks blankLoad "https://example.com"
               "<html><body>Hello</body></html>" 800) = [].
Proof.
  exact (proj1 (C2_not_wordpress "$" blankLoad "https://example.com"
                  "<html><body>Hello</body></html>" 800 eq_refl eq_refl
                  ltac:(intros generator H; discriminate H))).
Defined.

(** The claim as stated fails: a plain document is not detected as
    WordPress and its wordpress bucket holds no advisory at all, so not
    the one migration advisory. *)
Lemma C2_counterexample :
  DomVariant.isWordPress "<html><body>Hello</body></html>"
    (blankLoad "<html><body>Hello</body></html>") = false
  /\ wordpress (DomVariant.runChecks blankLoad "https://example.com"
                  "<html><body>Hello</body></html>" 800) = []
  /\ List.length (wordpress (DomVariant.runChecks blankLoad "https://example.com"
                               "<html><body>Hello</body></html>" 800)) <> 1.
Proof.
  split; [reflexivity |].
  rewrite wordpress_runChecks.
  split; [reflexivity | discriminate].
Qed.

(** ** The title check *)

Lemma truthyString_length s : truthyString s = true <-> 0 < String.length s.
Proof.
  unfold truthyString. destruct s; cbn.
  - split; [discriminate | intros H; inversion H].
  - split; [intros _; apply Nat.lt_0_succ | reflexivity].
Qed.

Lemma title_advisory_in load url html loadTime x :
  citesTitleCheck x = true ->
  In x (seo (DomVariant.runChecks load url html loadTime))
  <-> In x (titleAdvisories (titleOf (load html))).
Proof.
  intros Hx. rewrite seo_runChecks. rewrite !in_app_iff.
  split; [| intros H; right; right; left; exact H].
  unfold metaDescriptionAdvisories, h1Advisories, openGraphAdvisories,
    structuredDataAdvisories.
  intros [H | [H | [H | [H | [H | [H | H]]]]]]; try exact H; exfalso;
    repeat match type of H with
    | In _ (if ?c then _ else _) => destruct c
    | In _ (match ?o with Some _ => _ | None => _ end) => destruct o
    end;
    cbn [In] in H;
    first [ contradiction
          | destruct H as [H | H]; [subst x; discriminate Hx | contradiction] ].
Qed.

Lemma titleAdvisories_cases title :
  let n := String.length title in
  (n = 0 /\ titleAdvisories title = [missingTitle])
  \/ (60 < n /\ titleAdvisories title = [titleTooLong n])
  \/ (1 <= n < 30 /\ titleAdvisories title = [titleTooShort])
  \/ (30 <= n <= 60 /\ titleAdvisories title = []).
Proof.
  intros n. unfold titleAdvisories. fold n.
  pose proof (truthyString_length title) as T. fold n in T.
  destruct (truthyString title); cbn [negb].
  - assert (0 < n) by (apply T; reflexivity).
    destruct (Nat.ltb_spec 60 n); [right; left; split; [lia | reflexivity] |].
    destruct (Nat.ltb_spec n 30); right; right;
      [left | right]; (split; [lia | reflexivity]).
  - left. split; [| reflexivity].
    destruct (Nat.eq_dec n 0) as [E | N]; [exact E |].
    assert (false = true) by (apply T; lia). discriminate.
Qed.

Lemma title_fires load url html loadTime :
  let b := DomVariant.runChecks load url html loadTime in
  let n := String.length (titleOf (load html)) in
  (firesMissingTitle b <-> n = 0)
  /\ (firesTitleTooLong b <-> 60 < n)
  /\ (firesTitleTooShort b <-> 1 <= n < 30)
  /\ (forall k, In (titleTooLong k) (seo b) -> 60 < n)
  /\ (60 < n -> In (titleTooLong n) (seo b)).
Proof.
  intros b n. subst b.
  unfold firesMissingTitle, firesTitleTooLong, firesTitleTooShort.
  assert (Long : forall k,
             In (titleTooLong k) (seo (DomVariant.runChecks load url html loadTime))
             <-> In (titleTooLong k) (titleAdvisories (titleOf (load html)))).
  { intros k. apply title_advisory_in. reflexivity. }
  rewrite (title_advisory_in load url html loadTime missingTitle eq_refl).
  rewrite (title_advisory_in load url html loadTime titleTooShort eq_refl).
  destruct (titleAdvisories_cases (titleOf (load html)))
    as [[Hn E] | [[Hn E] | [[Hn E] | [Hn E]]]];
    fold n in Hn, E; rewrite E; setoid_rewrite E in Long;
    repeat split; intros;
    repeat match goal with
    | H : exists _, _ |- _ => destruct H as [? H]
    | H : In (titleTooLong _) (seo _) |- _ => apply Long in H
    | H : In _ (_ :: _) |- _ => destruct H as [H | H]
    | H : In _ [] |- _ => destruct H
    | H : @eq AdvisoryItem _ _ |- _ =>
        apply (f_equal source) in H; discriminate H
    end;
    try lia;
    try (left; reflexivity);
    try (exists n; apply Long; left; reflexivity);
    try (apply Long; left; reflexivity).
Qed.

(** C3, as amended: at most one of the three title advisories fires.  With
    no [title] element the analysis emits "missing title" and no
    length-based advisory; the same holds when a title is present and its
    trimmed text is empty.  A trimmed length of exactly 60 emits none of
    the three, a length of 61 emits "too long" with the count 61 in its
    text, and a length from 1 to 29 emits "too short". *)
Theorem C3_title_advisories
    (load : string -> Cheerio.Document) (url html : string) (loadTime : Z) :
  let b := DomVariant.runChecks load url html loadTime in
  let n := String.length (titleOf (load html)) in
  ~ (firesMissingTitle b /\ firesTitleTooLong b)
  /\ ~ (firesMissingTitle b /\ firesTitleTooShort b)
  /\ ~ (firesTitleTooLong b /\ firesTitleTooShort b)
  /\ (load html "title" = [] ->
      firesMissingTitle b /\ ~ firesTitleTooLong b /\ ~ firesTitleTooShort b)
  /\ (n = 0 ->
      firesMissingTitle b /\ ~ firesTitleTooLong b /\ ~ firesTitleTooShort b)
  /\ (n = 60 ->
      ~ firesMissingTitle b /\ ~ firesTitleTooLong b /\ ~ firesTitleTooShort b)
  /\ (n = 61 ->
      In (titleTooLong 61) (seo b)
      /\ text (titleTooLong 61)
         = "Page title is 61 characters - should be 50-60 for optimal display"
      /\ ~ firesMissingTitle b /\ ~ firesTitleTooShort b)
  /\ (1 <= n < 30 ->
      firesTitleTooShort b /\ ~ firesMissingTitle b /\ ~ firesTitleTooLong b).
Proof.
  intros b n.
  destruct (title_fires load url html loadTime) as (M & L & S' & _ & L').
  fold b n in M, L, S', L'.
  assert (E : load html "title" = [] -> n = 0).
  { intros H. subst n. unfold titleOf. rewrite H. reflexivity. }
  rewrite M, L, S'.
  repeat split; intros; try lia.
  - subst n. apply E in H. lia.
  - subst n. apply E in H. lia.
  - subst n. apply E in H. lia.
  - rewrite <- H. apply L'. lia.
Qed.

Lemma C3_title_advisories_witness :
  In (titleTooLong 61)
    (seo (DomVariant.runChecks
            (fixedLoad [("title",
               [element [] "  The title that is exactly sixty-one characters long, no more. "])])
            "https://example.com" "<title>...</title>" 120)).
Proof.
  exact (proj1 (proj1 (proj2 (proj2 (proj2 (proj2 (proj2 (proj2
           (C3_title_advisories
              (fixedLoad [("title",
                 [element [] "  The title that is exactly sixty-one characters long, no more. "])])
              "https://example.com" "<title>...</title>" 120)))))))
           eq_refl)).
Defined.

(** The claim as stated fails: a [title] element is present, its trimmed
    text has length 0, below 30, and the analysis reports the title as
    missing instead of short. *)
Lemma C3_counterexample :
  let load := fixedLoad [("title", [element [] EmptyString])] in
  let b := DomVariant.runChecks load "https://example.com" "<title></title>" 120 in
  load "<title></title>" "title" <> []
  /\ String.length (titleOf (load "<title></title>")) < 30
  /\ ~ firesTitleTooShort b
  /\ firesMissingTitle b.
Proof.
  intros load b.
  destruct (title_fires load "https://example.com" "<title></title>" 120)
    as (M & _ & S' & _).
  fold b in M, S'.
  split; [discriminate |]. split; [cbn; lia |].
  rewrite M, S'. cbn. split; [lia | reflexivity].
Qed.

(** ** Images without alt text *)

Lemma countImagesWithoutAlt_filter images :
  DomVariant.countImagesWithoutAlt images = List.length (filter lacksAltText images).
Proof.
  unfold DomVariant.countImagesWithoutAlt.
  assert (G : forall l acc,
             fold_left
               (fun imagesWithoutAlt img =>
                  if negb (truthy (Cheerio.attr [img] "alt"))
                  then S imagesWithoutAlt else imagesWithoutAlt) l acc
             = acc + List.length (filter lacksAltText l)).
  { induction l as [| img l IH]; intros acc; cbn [fold_left filter].
    - cbn. lia.
    - rewrite IH. unfold lacksAltText at 2. cbn [Cheerio.attr].
      destruct (negb (truthy (Cheerio.getAttribute "alt" (Cheerio.attribs img))));
        cbn [List.length]; lia. }
  apply G.
Qed.

Lemma countTagsWithoutAlt_filter tags :
  RegexVariant.countTagsWithoutAlt tags
  = List.length (filter (fun tag => negb (JS.includes tag "alt=")) tags).
Proof.
  unfold RegexVariant.countTagsWithoutAlt.
  assert (G : forall l acc,
             fold_left
               (fun imagesWithoutAlt img =>
                  if negb (JS.includes img "alt=")
                  then S imagesWithoutAlt else imagesWithoutAlt) l acc
             = acc + List.length
                       (filter (fun tag => negb (JS.includes tag "alt=")) l)).
  { induction l as [| img l IH]; intros acc; cbn [fold_left filter].
    - cbn. lia.
    - rewrite IH. destruct (negb (JS.includes img "alt=")); cbn [List.length]; lia. }
  apply G.
Qed.

Lemma lacksAltAttribute_lacksAltText img :
  lacksAltAttribute img = true -> lacksAltText img = true.
Proof.
  unfold lacksAltAttribute, lacksAltText.
  destruct (Cheerio.getAttribute "alt" (Cheerio.attribs img));
    [discriminate | reflexivity].
Qed.

Lemma filter_length_le {A} (p q : A -> bool) (l : list A) :
  (forall x, p x = true -> q x = true) ->
  List.length (filter p l) <= List.length (filter q l).
Proof.
  intros H. induction l as [| x l IH]; cbn [filter]; [lia |].
  destruct (p x) eqn:P.
  - rewrite (H x P). cbn [List.length]. lia.
  - destruct (q x); cbn [List.length]; lia.
Qed.

(** C9, as amended: a document with no [img] element leaves the
    accessibility bucket empty and no Accessibility group is emitted.  When
    at least one [img] has no [alt] attribute or an empty one, the bucket
    holds exactly one advisory, and the count in its text is the number of
    such images; it is at least the number of images without the
    attribute.  When there is no such image the bucket is empty. *)
Theorem C9_images_without_alt
    (load : string -> Cheerio.Document) (url html : string) (loadTime : Z) :
  let b := DomVariant.runChecks load url html loadTime in
  let images := load html "img" in
  let counted := List.length (filter lacksAltText images) in
  (images = [] ->
   accessibility b = []
   /\ groupsNamed "Accessibility" (DomVariant.compileResults b) = [])
  /\ (0 < counted -> accessibility b = [imagesWithoutAltText counted])
  /\ (counted = 0 -> accessibility b = [])
  /\ (0 < List.length (filter lacksAltAttribute images) ->
      accessibility b = [imagesWithoutAltText counted]
      /\ List.length (filter lacksAltAttribute images) <= counted).
Proof.
  intros b images counted.
  assert (E : accessibility b
              = if 0 <? counted then [imagesWithoutAltText counted] else []).
  { subst b counted images. rewrite accessibility_runChecks.
    rewrite countImagesWithoutAlt_filter. reflexivity. }
  assert (Le : List.length (filter lacksAltAttribute images) <= counted).
  { apply filter_length_le, lacksAltAttribute_lacksAltText. }
  assert (P : 0 < counted -> accessibility b = [imagesWithoutAltText counted]).
  { intros H. rewrite E. apply Nat.ltb_lt in H. rewrite H. reflexivity. }
  assert (Z0 : counted = 0 -> accessibility b = []).
  { intros H. rewrite E, H. reflexivity. }
  split; [| split; [exact P | split; [exact Z0 |]]].
  - intros H.
    assert (A : accessibility b = []).
    { apply Z0. subst counted. rewrite H. reflexivity. }
    split; [exact A |].
    rewrite compileResults_accessibility_group, A. reflexivity.
  - intros H. split; [apply P; lia | exact Le].
Qed.

Lemma C9_images_without_alt_witness :
  accessibility
    (DomVariant.runChecks
       (fixedLoad [("img", [element [] EmptyString;
                            element [("alt", "logo")] EmptyString])])
       "https://example.com" "<img><img alt=logo>" 120)
  = [imagesWithoutAltText 1].
Proof.
  exact (proj1 (proj2
           (C9_images_without_alt
              (fixedLoad [("img", [element [] EmptyString;
                                   element [("alt", "logo")] EmptyString])])
              "https://example.com" "<img><img alt=logo>" 120))
           (Nat.lt_0_succ 0)).
Defined.

(** The claim as stated fails: one image has no [alt] attribute, so the
    count of images lacking the attribute is 1, and a second image has an
    empty [alt]; the advisory interpolates 2. *)
Lemma C9_counterexample :
  let images := [element [] EmptyString; element [("alt", EmptyString)] EmptyString] in
  let b := DomVariant.runChecks (fixedLoad [("img", images)])
             "https://example.com" "<img><img alt>" 120 in
  List.length (filter lacksAltAttribute images) = 1
  /\ accessibility b = [imagesWithoutAltText 2]
  /\ accessibility b
     <> [imagesWithoutAltText (List.length (filter lacksAltAttribute images))].
Proof.
  intros images b. subst b.
  rewrite accessibility_runChecks.
  split; [reflexivity |]. split; [reflexivity |].
  cbn. intros H. discriminate H.
Qed.

(** C10: in the cheerio-based analysis an [img] whose [alt] attribute is
    the empty string is counted among the images without alt text, and so
    enters the count of the accessibility advisory, because the loop tests
    the falsiness of the attribute's value.  In [analyzeHTML] a matched tag
    whose text holds [alt=] is not counted, so the tag [<img alt="">] alone
    gives no Accessibility group there. *)
Theorem C10_empty_alt_is_counted :
  (forall before img after,
      Cheerio.getAttribute "alt" (Cheerio.attribs img) = Some EmptyString ->
      DomVariant.countImagesWithoutAlt (before ++ img :: after)%list
      = S (DomVariant.countImagesWithoutAlt (before ++ after)%list))
  /\ (forall load url html loadTime before img after,
         load html "img" = (before ++ img :: after)%list ->
         Cheerio.getAttribute "alt" (Cheerio.attribs img) = Some EmptyString ->
         accessibility (DomVariant.runChecks load url html loadTime)
         = [imagesWithoutAltText
              (S (DomVariant.countImagesWithoutAlt (before ++ after)%list))])
  /\ (forall before tag after,
         JS.includes tag "alt=" = true ->
         RegexVariant.countTagsWithoutAlt (before ++ tag :: after)%list
         = RegexVariant.countTagsWithoutAlt (before ++ after)%list)
  /\ (forall needle url loadTime,
         RegExp.matchAllOpenTags "img" ("<img alt=" ++ dq ++ dq ++ ">")
         = ["<img alt=" ++ dq ++ dq ++ ">"]
         /\ groupsNamed "Accessibility"
              (RegexVariant.analyzeHTML needle ("<img alt=" ++ dq ++ dq ++ ">")
                 url loadTime) = []).
Proof.
  assert (D : forall before img after,
             Cheerio.getAttribute "alt" (Cheerio.attribs img) = Some EmptyString ->
             DomVariant.countImagesWithoutAlt (before ++ img :: after)%list
             = S (DomVariant.countImagesWithoutAlt (before ++ after)%list)).
  { intros before img after H.
    rewrite !countImagesWithoutAlt_filter, !filter_app. cbn [filter].
    unfold lacksAltText at 2. rewrite H. cbn [truthy truthyString negb String.eqb].
    rewrite !length_app. cbn [List.length]. lia. }
  split; [exact D |]. split; [| split].
  - intros load url html loadTime before img after Himg Halt.
    rewrite accessibility_runChecks, Himg, (D before img after Halt).
    reflexivity.
  - intros before tag after H.
    rewrite !countTagsWithoutAlt_filter, !filter_app. cbn [filter].
    rewrite H. reflexivity.
  - intros needle url loadTime. split; [reflexivity |].
    rewrite analyzeHTML_accessibility_group. reflexivity.
Qed.

Lemma C10_empty_alt_is_counted_witness :
  DomVariant.countImagesWithoutAlt
    ([element [("alt", "logo")] EmptyString]
       ++ element [("src", "a.png"); ("alt", EmptyString)] EmptyString :: [])%list
  = S (DomVariant.countImagesWithoutAlt
         ([element [("alt", "logo")] EmptyString] ++ [])%list).
Proof.
  exact (proj1 C10_empty_alt_is_counted
           [element [("alt", "logo")] EmptyString]
           (element [("src", "a.png"); ("alt", EmptyString)] EmptyString)
           [] eq_refl).
Defined.

(** * Further properties of the handlers *)

Lemma prefix_append p s : String.prefix p (p ++ s) = true.
Proof.
  induction p as [| a p IH]; cbn.
  - destruct s; reflexivity.
  - destruct (ascii_dec a a) as [_ | N]; [exact IH | contradiction].
Qed.

Lemma prefix_split p s : String.prefix p s = true -> exists rest, s = p ++ rest.
Proof.
  revert s. induction p as [| a p IH]; intros s H.
  - exists s. reflexivity.
  - destruct s as [| b s]; cbn in H; [discriminate |].
    destruct (ascii_dec a b) as [-> | N]; [| discriminate].
    destruct (IH s H) as [rest ->]. exists rest. reflexivity.
Qed.

Lemma ensureProtocol_has_scheme u :
  JS.startsWith (ensureProtocol u) "http://" = true
  \/ JS.startsWith (ensureProtocol u) "https://" = true.
Proof.
  unfold ensureProtocol.
  destruct (JS.startsWith u "http://") eqn:Hp; cbn [negb andb]; [left; exact Hp |].
  destruct (JS.startsWith u "https://") eqn:Hs; cbn [negb]; right;
    [exact Hs | apply prefix_append].
Qed.

Lemma ensureProtocol_idempotent u : ensureProtocol (ensureProtocol u) = ensureProtocol u.
Proof.
  destruct (ensureProtocol_has_scheme u) as [H | H];
    unfold ensureProtocol at 1; rewrite H; cbn [negb andb];
    [reflexivity | rewrite andb_false_r; reflexivity].
Qed.

Lemma ensureProtocol_nonempty u : ensureProtocol u <> EmptyString.
Proof.
  destruct (ensureProtocol_has_scheme u) as [H | H];
    destruct (ensureProtocol u); try discriminate; cbn in H; discriminate H.
Qed.

(** X1: every response of either handler, whatever the request and the
    network, carries the three CORS headers. *)
Theorem X1_cors_headers_always
    (needle : string) (lib : Libraries) (net : Net)
    (elapsed : Z) (req : Request) (c : Console) :
  headers (fst (RegexVariant.handler needle net elapsed req c)) = corsHeaders
  /\ headers (fst (DomVariant.handler lib net elapsed req c)) = corsHeaders.
Proof.
  unfold RegexVariant.handler, DomVariant.handler, RegexVariant.fetchError,
    serverError, bind, consoleLog, ret.
  destruct (method req =? "OPTIONS")%string; [split; reflexivity |].
  destruct (method req =? "POST")%string; cbn [negb]; [| split; reflexivity].
  destruct (body req) as [[| u | []] |]; try (split; reflexivity).
  destruct (truthyString u); cbn [negb]; [| split; reflexivity].
  split.
  - match goal with |- context [net ?t] => destruct (net t) as [code html | m] end;
      [destruct (isSuccess code) |]; reflexivity.
  - match goal with
    | |- context [DomVariant.analyzeWebsite ?l ?n ?e ?t ?k] =>
        destruct (DomVariant.analyzeWebsite l n e t k)
    end.
    reflexivity.
Qed.

(** X2: a request whose method is not POST is answered without reading the
    body, the network or the clock and without printing: OPTIONS gets
    status 200 with an empty body, any other method gets status 405 with
    the error "Method not allowed". *)
Theorem X2_method_dispatch
    (needle : string) (lib : Libraries) (net : Net)
    (elapsed : Z) (req : Request) (c : Console) :
  method req <> "POST" ->
  let answer := if (method req =? "OPTIONS")%string then respond 200 NoBody
                else respond 405 (ErrorJson "Method not allowed") in
  RegexVariant.handler needle net elapsed req c = (answer, c)
  /\ DomVariant.handler lib net elapsed req c = (answer, c).
Proof.
  intros H answer. subst answer.
  apply String.eqb_neq in H.
  unfold RegexVariant.handler, DomVariant.handler, ret.
  destruct (method req =? "OPTIONS")%string; [split; reflexivity |].
  rewrite H. split; reflexivity.
Qed.

Lemma X2_method_dispatch_witness :
  DomVariant.handler (libraries blankLoad) deadNet 0 {| method := "GET"; body := None |} []
  = (respond 405 (ErrorJson "Method not allowed"), []).
Proof.
  exact (proj2 (X2_method_dispatch "$" (libraries blankLoad) deadNet 0
                  {| method := "GET"; body := None |} [] ltac:(discriminate))).
Defined.

Ltac status_leaf P :=
  cbn [fst status respond negb];
  split;
  [ cbn; solve [auto 10]
  | let E := fresh "E" in
    intros E; first [discriminate E | split; [exact P | solve [auto]]] ].

(** X3: the status of a response is one of 200, 400, 405 and 500.  Status
    500 is answered only to a POST that has no body or whose [url] is a
    truthy value that is not a string; a POST with a URL string is never
    answered with 500, whatever the network does. *)
Theorem X3_status_codes
    (needle : string) (lib : Libraries) (net : Net)
    (elapsed : Z) (req : Request) (c : Console) :
  forall r,
    r = fst (RegexVariant.handler needle net elapsed req c)
    \/ r = fst (DomVariant.handler lib net elapsed req c) ->
    In (status r) [200; 400; 405; 500]
    /\ (status r = 500 ->
        method req = "POST"
        /\ (body req = None \/ body req = Some (JOther true)))
    /\ (forall u, body req = Some (JString u) -> status r <> 500).
Proof.
  intros r Hr.
  assert (G : In (status r) [200; 400; 405; 500]
              /\ (status r = 500 ->
                  method req = "POST"
                  /\ (body req = None \/ body req = Some (JOther true)))).
  { unfold RegexVariant.handler, DomVariant.handler, RegexVariant.fetchError,
      serverError, bind, consoleLog, ret in Hr.
    destruct (method req =? "OPTIONS")%string.
    { destruct Hr as [-> | ->]; status_leaf I. }
    destruct (method req =? "POST")%string eqn:P; cbn [negb] in Hr.
    2:{ destruct Hr as [-> | ->]; status_leaf I. }
    apply String.eqb_eq in P.
    destruct (body req) as [[| u | []] |];
      try (destruct Hr as [-> | ->]; status_leaf P).
    destruct (truthyString u); cbn [negb] in Hr.
    2:{ destruct Hr as [-> | ->]; status_leaf P. }
    destruct Hr as [-> | ->].
    - match goal with |- context [net ?t] => destruct (net t) as [code html | m] end;
        [destruct (isSuccess code) |]; status_leaf P.
    - match goal with
      | |- context [DomVariant.analyzeWebsite ?l ?n ?e ?t ?k] =>
          destruct (DomVariant.analyzeWebsite l n e t k)
      end.
      status_leaf P. }
  destruct G as [G1 G2]. split; [exact G1 |]. split; [exact G2 |].
  intros u Hu H500. destruct (G2 H500) as [_ [B | B]]; congruence.
Qed.

Lemma X3_status_codes_witness :
  status (fst (DomVariant.handler (libraries blankLoad) deadNet 0 (post "example.com") [])) <> 500.
Proof.
  exact (proj2 (proj2 (X3_status_codes "$" (libraries blankLoad) deadNet 0 (post "example.com") []
                         _ (or_intror eq_refl)))
           "example.com" eq_refl).
Defined.

(** X4: a URL that a handler reports back always starts with [http://] or
    [https://], and sending the reported URL in again reports it back
    unchanged, whatever the network does then. *)
Theorem X4_reported_url_has_scheme
    (needle : string) (lib : Libraries) (net net' : Net)
    (elapsed elapsed' : Z) (u : string) (c c' : Console) :
  forall r v,
    r = fst (RegexVariant.handler needle net elapsed (post u) c)
    \/ r = fst (DomVariant.handler lib net elapsed (post u) c) ->
    urlField r = Some v ->
    (JS.startsWith v "http://" = true \/ JS.startsWith v "https://" = true)
    /\ urlField (fst (RegexVariant.handler needle net' elapsed' (post v) c')) = Some v
    /\ urlField (fst (DomVariant.handler lib net' elapsed' (post v) c')) = Some v.
Proof.
  intros r v Hr Hv.
  assert (E : v = ensureProtocol u).
  { destruct (truthyString u) eqn:Hu.
    - destruct Hr as [-> | ->];
        [rewrite regex_handler_post in Hv by exact Hu
        | rewrite dom_handler_post in Hv by exact Hu];
        cbn in Hv; congruence.
    - unfold truthyString in Hu. apply negb_false_iff, String.eqb_eq in Hu.
      subst u. destruct Hr as [-> | ->]; discriminate Hv. }
  subst v.
  assert (T : truthyString (ensureProtocol u) = true).
  { unfold truthyString. apply negb_true_iff, String.eqb_neq.
    apply ensureProtocol_nonempty. }
  split; [apply ensureProtocol_has_scheme |].
  rewrite regex_handler_post, dom_handler_post by exact T.
  rewrite ensureProtocol_idempotent. split; reflexivity.
Qed.

Lemma X4_reported_url_has_scheme_witness :
  urlField (fst (DomVariant.handler (libraries blankLoad) (staticNet "<p>hi</p>") 7
                   (post "https://example.com") ["earlier line"]))
  = Some "https://example.com".
Proof.
  exact (proj2 (proj2 (X4_reported_url_has_scheme "$" (libraries blankLoad) deadNet
                         (staticNet "<p>hi</p>") 0 7 "example.com" [] ["earlier line"]
                         _ "https://example.com" (or_intror eq_refl) eq_refl))).
Defined.

(** X5: the cause of a failed fetch is printed, not answered.  Two failed
    fetches of the same URL get the same response from a handler, whatever
    the failures were; the console gains the line "Analyzing: <url>" and
    then the failure message, after "Fetch error:" in the fetch-based
    handler (where a reply outside the success range reads "HTTP <status>")
    and after "Analysis error:" in the cheerio-based one. *)
Theorem X5_failure_cause_is_logged
    (needle : string) (lib : Libraries) (net1 net2 : Net)
    (elapsed1 elapsed2 : Z) (u : string) (c1 c2 : Console) :
  u <> EmptyString ->
  fetchFails net1 (ensureProtocol u) = true ->
  fetchFails net2 (ensureProtocol u) = true ->
  fst (RegexVariant.handler needle net1 elapsed1 (post u) c1)
    = fst (RegexVariant.handler needle net2 elapsed2 (post u) c2)
  /\ fst (DomVariant.handler lib net1 elapsed1 (post u) c1)
     = fst (DomVariant.handler lib net2 elapsed2 (post u) c2)
  /\ (forall message,
         net1 (ensureProtocol u) = Failed message ->
         snd (RegexVariant.handler needle net1 elapsed1 (post u) c1)
           = app c1 [("Analyzing: " ++ ensureProtocol u)%string;
                     ("Fetch error: " ++ message)%string]
         /\ snd (DomVariant.handler lib net1 elapsed1 (post u) c1)
            = app c1 [("Analyzing: " ++ ensureProtocol u)%string;
                        ("Analysis error: " ++ message)%string])
  /\ (forall code data,
         net1 (ensureProtocol u) = Replied code data ->
         snd (RegexVariant.handler needle net1 elapsed1 (post u) c1)
         = app c1 [("Analyzing: " ++ ensureProtocol u)%string;
                   ("Fetch error: HTTP " ++ JS.numToString code)%string]).
Proof.
  intros Hu F1 F2.
  assert (Ht : truthyString u = true).
  { unfold truthyString. apply negb_true_iff, String.eqb_neq. exact Hu. }
  split; [| split; [| split]].
  - rewrite !regex_handler_post by exact Ht.
    unfold fetchFails in F1, F2.
    destruct (net1 (ensureProtocol u)) as [k1 d1 | m1],
             (net2 (ensureProtocol u)) as [k2 d2 | m2];
      try (apply negb_true_iff in F1; rewrite F1);
      try (apply negb_true_iff in F2; rewrite F2); reflexivity.
  - rewrite !dom_handler_post by exact Ht.
    rewrite (bucketsOf_failure lib net1 elapsed1 _ F1),
      (bucketsOf_failure lib net2 elapsed2 _ F2).
    reflexivity.
  - intros message Hm.
    unfold RegexVariant.handler, DomVariant.handler, post; cbn [method body].
    change ("POST" =? "OPTIONS")%string with false.
    change ("POST" =? "POST")%string with true.
    cbn [negb]. rewrite Ht. cbn [negb]. fold (ensureProtocol u).
    unfold bind, consoleLog, ret, RegexVariant.fetchError,
      DomVariant.analyzeWebsite, DomVariant.analysisError, bind, consoleLog, ret.
    rewrite Hm. cbn [fst snd]. rewrite <- !app_assoc. split; reflexivity.
  - intros code data Hm.
    unfold fetchFails in F1. rewrite Hm in F1.
    unfold RegexVariant.handler, post; cbn [method body].
    change ("POST" =? "OPTIONS")%string with false.
    change ("POST" =? "POST")%string with true.
    cbn [negb]. rewrite Ht. cbn [negb]. fold (ensureProtocol u).
    unfold bind, consoleLog, ret, RegexVariant.fetchError, bind, consoleLog, ret.
    rewrite Hm, F1. cbn [fst snd]. rewrite <- !app_assoc. reflexivity.
Qed.

Lemma X5_failure_cause_is_logged_witness :
  fst (DomVariant.handler (libraries blankLoad) deadNet 0 (post "example.com") [])
  = fst (DomVariant.handler (libraries blankLoad) (fun _ => Replied 503 "busy") 12000
           (post "example.com") ["x"]).
Proof.
  exact (proj1 (proj2 (X5_failure_cause_is_logged "$" (libraries blankLoad) deadNet
                         (fun _ => Replied 503 "busy") 0 12000 "example.com" [] ["x"]
                         ltac:(discriminate) eq_refl eq_refl))).
Defined.

(** * Further properties of the checks *)

(** An advisory that a list of other advisories cannot hold. *)
Ltac absurd_in H :=
  cbn [negb] in H;
  repeat match type of H with
    | In _ (if ?c then _ else _) => destruct c
    | In _ (match ?o with Some _ => _ | None => _ end) => destruct o
    end;
  cbn [In] in H;
  first
    [ contradiction
    | destruct H as [H | H]; [| contradiction];
      first
        [ let Hs := fresh in
          pose proof (f_equal source H) as Hs; cbn in Hs; discriminate Hs
        | let Hx := fresh in
          pose proof (f_equal text H) as Hx; cbn in Hx; discriminate Hx ] ].

Lemma useHttps_in load url html loadTime :
  In useHttps (seo (DomVariant.runChecks load url html loadTime))
  <-> JS.startsWith url "https://" = false.
Proof.
  rewrite seo_runChecks, !in_app_iff.
  unfold titleAdvisories, metaDescriptionAdvisories, h1Advisories,
    openGraphAdvisories, structuredDataAdvisories.
  destruct (JS.startsWith url "https://"); cbn [negb]; split.
  - intros [H | [H | [H | [H | [H | [H | H]]]]]]; exfalso; absurd_in H.
  - discriminate.
  - reflexivity.
  - intros _. left. left. reflexivity.
Qed.

Lemma http_is_not_https u :
  JS.startsWith u "http://" = true -> JS.startsWith u "https://" = false.
Proof.
  intros H. destruct (prefix_split _ _ H) as [rest ->]. reflexivity.
Qed.

Lemma ensureProtocol_https u :
  JS.startsWith (ensureProtocol u) "https://" = false
  <-> JS.startsWith u "http://" = true.
Proof.
  unfold ensureProtocol.
  destruct (JS.startsWith u "http://") eqn:Hp; cbn [negb andb].
  - rewrite (http_is_not_https u Hp). split; reflexivity.
  - destruct (JS.startsWith u "https://") eqn:Hs; cbn [negb].
    + rewrite Hs. split; discriminate.
    + unfold JS.startsWith. rewrite prefix_append. split; discriminate.
Qed.

Lemma compileResults_seo_group b :
  groupsNamed "SEO Optimization" (DomVariant.compileResults b)
  = match seo b with
    | [] => []
    | _ :: _ => [ {| category := "SEO Optimization"; icon := "🔍"; priority := "high";
                     items := seo b |} ]
    end.
Proof.
  destruct b as [s p w u a c]; destruct s, p, w, u, a, c; reflexivity.
Qed.

(** What the SEO group of the response holds when the page was fetched and
    axios hands it over as a string: the seo bucket of the checks. *)
Lemma seo_group_of_response lib net elapsed u data html code c x :
  u <> EmptyString ->
  net (ensureProtocol u) = Replied code data -> isSuccess code = true ->
  axiosData lib data = JSON.Str html ->
  (exists g,
      In g (groupsNamed "SEO Optimization"
              (improvementsOf (fst (DomVariant.handler lib net elapsed (post u) c))))
      /\ In x (items g))
  <-> In x (seo (DomVariant.runChecks (cheerioLoad lib) (ensureProtocol u) html elapsed)).
Proof.
  intros Hu Hnet Hok Hdata.
  assert (Ht : truthyString u = true).
  { unfold truthyString. apply negb_true_iff, String.eqb_neq. exact Hu. }
  rewrite dom_handler_post by exact Ht.
  rewrite (bucketsOf_text lib net elapsed _ code data html Hnet Hok Hdata).
  cbn [improvementsOf payload respond].
  rewrite compileResults_seo_group.
  destruct (seo (DomVariant.runChecks (cheerioLoad lib) (ensureProtocol u) html elapsed))
    as [| y l] eqn:E.
  - split; [intros (g & [] & _) | intros []].
  - split.
    + intros (g & [<- | []] & H). exact H.
    + intros H. eexists. split; [left; reflexivity | exact H].
Qed.

(** X6: when the page is fetched and axios hands it over as a string, the
    "use HTTPS" advisory is in the SEO group of the response exactly when
    the URL sent in starts with [http://]: a URL sent without a scheme is
    analysed as [https://] and never draws the advisory. *)
Theorem X6_https_advisory
    (lib : Libraries) (net : Net) (elapsed : Z)
    (u data html : string) (code : nat) (c : Console) :
  u <> EmptyString ->
  net (ensureProtocol u) = Replied code data -> isSuccess code = true ->
  axiosData lib data = JSON.Str html ->
  let r := fst (DomVariant.handler lib net elapsed (post u) c) in
  (exists g, In g (groupsNamed "SEO Optimization" (improvementsOf r))
             /\ In useHttps (items g))
  <-> JS.startsWith u "http://" = true.
Proof.
  intros Hu Hnet Hok Hdata r. subst r.
  rewrite (seo_group_of_response lib net elapsed u data html code c useHttps
             Hu Hnet Hok Hdata).
  rewrite <- ensureProtocol_https.
  apply useHttps_in.
Qed.

Lemma X6_https_advisory_witness :
  (exists g,
      In g (groupsNamed "SEO Optimization"
              (improvementsOf
                 (fst (DomVariant.handler (libraries blankLoad) (staticNet "<p>hi</p>") 40
                         (post "http://example.com") []))))
      /\ In useHttps (items g))
  <-> JS.startsWith "http://example.com" "http://" = true.
Proof.
  exact (X6_https_advisory (libraries blankLoad) (staticNet "<p>hi</p>") 40
           "http://example.com" "<p>hi</p>" "<p>hi</p>" 200 []
           ltac:(discriminate) eq_refl eq_refl eq_refl).
Defined.

Lemma seo_in load url html loadTime x :
  In x (seo (DomVariant.runChecks load url html loadTime))
  <-> In x (if negb (JS.startsWith url "https://") then [useHttps] else [])
      \/ In x (if 60 <? String.length url then [urlTooLong] else [])
      \/ In x (titleAdvisories (titleOf (load html)))
      \/ In x (metaDescriptionAdvisories
                 (Cheerio.attr
                    (load html ("meta[name=" ++ quoted "description" ++ "]")%string)
                    "content"))
      \/ In x (h1Advisories (List.length (load html "h1")))
      \/ In x (openGraphAdvisories (load html))
      \/ In x (structuredDataAdvisories html (load html)).
Proof. rewrite seo_runChecks, !in_app_iff. reflexivity. Qed.

(** X7: the heading check of the cheerio-based analysis.  With no [h1]
    element the SEO bucket holds "No H1 heading found"; with more than one
    it holds "Found n H1 headings" with their number; with exactly one it
    holds neither. *)
Theorem X7_h1_check
    (load : string -> Cheerio.Document) (url html : string) (loadTime : Z) :
  let b := DomVariant.runChecks load url html loadTime in
  let n := List.length (load html "h1") in
  (In noH1 (seo b) <-> n = 0)
  /\ ((exists k, In (multipleH1 k) (seo b)) <-> 1 < n)
  /\ (1 < n -> In (multipleH1 n) (seo b))
  /\ (n = 1 -> ~ In noH1 (seo b) /\ ~ (exists k, In (multipleH1 k) (seo b))).
Proof.
  intros b n. subst b.
  assert (A : In noH1 (seo (DomVariant.runChecks load url html loadTime)) <-> n = 0).
  { rewrite seo_in. fold n. unfold titleAdvisories, metaDescriptionAdvisories,
      h1Advisories, openGraphAdvisories, structuredDataAdvisories.
    split.
    - intros [H | [H | [H | [H | [H | [H | H]]]]]];
        try (exfalso; absurd_in H).
      destruct (Nat.eqb_spec n 0) as [E | E]; [exact E |].
      exfalso; absurd_in H.
    - intros ->. do 4 right. left. left. reflexivity. }
  assert (B : forall k, In (multipleH1 k)
                          (seo (DomVariant.runChecks load url html loadTime))
                        -> 1 < n).
  { intros k. rewrite seo_in. fold n.
    unfold titleAdvisories, metaDescriptionAdvisories,
      h1Advisories, openGraphAdvisories, structuredDataAdvisories.
    intros [H | [H | [H | [H | [H | [H | H]]]]]];
      try (exfalso; absurd_in H).
    destruct (Nat.eqb_spec n 0) as [E | E]; [exfalso; absurd_in H |].
    destruct (Nat.ltb_spec 1 n) as [L | L]; [exact L | destruct H]. }
  assert (C : 1 < n -> In (multipleH1 n)
                         (seo (DomVariant.runChecks load url html loadTime))).
  { intros L. rewrite seo_in. fold n. do 4 right. left.
    unfold h1Advisories.
    destruct (Nat.eqb_spec n 0) as [E | E]; [lia |].
    apply Nat.ltb_lt in L. rewrite L. left. reflexivity. }
  split; [exact A |]. split; [| split; [exact C |]].
  - split; [intros [k H]; exact (B k H) | intros L; exists n; exact (C L)].
  - intros E. split.
    + rewrite A. lia.
    + intros [k H]. apply B in H. lia.
Qed.

Lemma X7_h1_check_witness :
  In (multipleH1 2)
    (seo (DomVariant.runChecks
            (fixedLoad [("h1", [element [] "One"; element [] "Two"])])
            "https://example.com" "<h1>One</h1><h1>Two</h1>" 50)).
Proof.
  exact (proj1 (proj2 (proj2
           (X7_h1_check (fixedLoad [("h1", [element [] "One"; element [] "Two"])])
              "https://example.com" "<h1>One</h1><h1>Two</h1>" 50)))
           (Nat.lt_succ_diag_r 1)).
Defined.

(** X8: the meta description check of the cheerio-based analysis.  The
    "missing meta description" advisory is emitted exactly when no
    description content is found or it is the empty string; a content of
    more than 160 characters draws "Meta description is n characters" with
    its length, and a non-empty content of at most 160 characters draws
    neither. *)
Theorem X8_meta_description_check
    (load : string -> Cheerio.Document) (url html : string) (loadTime : Z) :
  let b := DomVariant.runChecks load url html loadTime in
  let metaDesc :=
    Cheerio.attr (load html ("meta[name=" ++ quoted "description" ++ "]")%string)
      "content" in
  (In missingMetaDescription (seo b) <-> truthy metaDesc = false)
  /\ (forall d, metaDesc = Some d -> 160 < String.length d ->
      In (metaDescriptionTooLong (String.length d)) (seo b))
  /\ (forall d, metaDesc = Some d -> 0 < String.length d <= 160 ->
      ~ In missingMetaDescription (seo b)
      /\ ~ (exists k, In (metaDescriptionTooLong k) (seo b))).
Proof.
  intros b metaDesc. subst b.
  assert (A : In missingMetaDescription
                (seo (DomVariant.runChecks load url html loadTime))
              <-> truthy metaDesc = false).
  { rewrite seo_in. fold metaDesc.
    unfold titleAdvisories, metaDescriptionAdvisories,
      h1Advisories, openGraphAdvisories, structuredDataAdvisories.
    split.
    - intros [H | [H | [H | [H | [H | [H | H]]]]]];
        try (exfalso; absurd_in H).
      destruct metaDesc as [d |]; [| reflexivity].
      cbn [truthy]. destruct (truthyString d); [| reflexivity].
      exfalso; absurd_in H.
    - intros T. do 3 right. left.
      destruct metaDesc as [d |]; [| left; reflexivity].
      cbn [truthy] in T. rewrite T. left. reflexivity. }
  split; [exact A |]. split.
  - intros d Hd L. rewrite seo_in. fold metaDesc. do 3 right. left.
    rewrite Hd. unfold metaDescriptionAdvisories.
    rewrite (proj2 (truthyString_length d)) by lia. cbn [negb].
    apply Nat.ltb_lt in L. rewrite L. left. reflexivity.
  - intros d Hd [Lo Hi]. split.
    + rewrite A, Hd. cbn [truthy].
      rewrite (proj2 (truthyString_length d)) by exact Lo. discriminate.
    + intros [k H]. revert H. rewrite seo_in. fold metaDesc. rewrite Hd.
      unfold titleAdvisories, metaDescriptionAdvisories,
        h1Advisories, openGraphAdvisories, structuredDataAdvisories.
      rewrite (proj2 (truthyString_length d)) by exact Lo. cbn [negb].
      destruct (Nat.ltb_spec 160 (String.length d)) as [L | L]; [lia |].
      intros [H | [H | [H | [H | [H | [H | H]]]]]]; absurd_in H.
Qed.

Lemma X8_meta_description_check_witness :
  ~ In missingMetaDescription
      (seo (DomVariant.runChecks
              (fixedLoad [("meta[name=" ++ quoted "description" ++ "]",
                           [element [("content", "A short description.")] EmptyString])])
              "https://example.com" "<meta>" 50)).
Proof.
  exact (proj1 (proj2 (proj2
           (X8_meta_description_check
              (fixedLoad [("meta[name=" ++ quoted "description" ++ "]",
                           [element [("content", "A short description.")] EmptyString])])
              "https://example.com" "<meta>" 50))
           "A short description." eq_refl
           ltac:(cbn; lia))).
Defined.

Lemma length_optional {A} (c : bool) (x : A) :
  List.length (if c then [x] else []) <= 1.
Proof. destruct c; cbn; lia. Qed.

Lemma titleAdvisories_length title : List.length (titleAdvisories title) <= 1.
Proof.
  unfold titleAdvisories.
  repeat match goal with |- context [if ?c then _ else _] => destruct c end;
    cbn; lia.
Qed.

Lemma compileResults_length b :
  List.length (DomVariant.compileResults b)
  = List.length (filter (fun bucket => 0 <? List.length bucket)
                   [seo b; wordpress b; performance b; ux b; content b;
                    accessibility b]).
Proof.
  destruct b as [s p w u a c]; destruct s, p, w, u, a, c; reflexivity.
Qed.

Lemma metaDescriptionAdvisories_length metaDesc :
  List.length (metaDescriptionAdvisories metaDesc) <= 1.
Proof.
  unfold metaDescriptionAdvisories.
  repeat match goal with
         | |- context [match ?o with Some _ => _ | None => _ end] => destruct o
         | |- context [if ?c then _ else _] => destruct c
         end; cbn; lia.
Qed.

Lemma h1Advisories_length h1Count : List.length (h1Advisories h1Count) <= 1.
Proof.
  unfold h1Advisories.
  repeat match goal with |- context [if ?c then _ else _] => destruct c end;
    cbn; lia.
Qed.

(** The sizes of what the checks leave for a page. *)
Lemma runChecks_sizes load url html loadTime :
  let b := DomVariant.runChecks load url html loadTime in
  List.length (seo b) <= 7
  /\ List.length (wordpress b) <= 4
  /\ List.length (performance b) = 1
  /\ 1 <= List.length (ux b) <= 2
  /\ List.length (accessibility b) <= 1
  /\ List.length (content b) <= 1.
Proof.
  intros b. subst b.
  split; [| split; [| split; [| split; [| split]]]].
  - rewrite seo_runChecks, !length_app.
    pose proof (length_optional (negb (JS.startsWith url "https://")) useHttps).
    pose proof (length_optional (60 <? String.length url) urlTooLong).
    pose proof (titleAdvisories_length (titleOf (load html))).
    pose proof (metaDescriptionAdvisories_length
                  (Cheerio.attr
                     (load html ("meta[name=" ++ quoted "description" ++ "]")%string)
                     "content")).
    pose proof (h1Advisories_length (List.length (load html "h1"))).
    assert (List.length (openGraphAdvisories (load html)) <= 1)
      by apply length_optional.
    assert (List.length (structuredDataAdvisories html (load html)) <= 1)
      by apply length_optional.
    lia.
  - rewrite wordpress_runChecks.
    destruct (DomVariant.isWordPress html (load html)); [| cbn; lia].
    cbn [List.length]. rewrite !length_app. cbn [List.length].
    assert (List.length (themeAdvisories html) <= 1).
    { unfold themeAdvisories.
      repeat match goal with
             | |- context [match ?o with Some _ => _ | None => _ end] => destruct o
             | |- context [if ?c then _ else _] => destruct c
             end; cbn; lia. }
    pose proof (length_optional (negb (JS.includes html "jetpack")) installJetpack).
    unfold jetpackAdvisories. lia.
  - rewrite performance_runChecks. destruct (3000 <? loadTime)%Z; reflexivity.
  - rewrite ux_runChecks.
    destruct (contactCheckFires html), (viewportCheckFires (load html)); cbn; lia.
  - rewrite accessibility_runChecks. apply length_optional.
  - rewrite content_runChecks. apply length_optional.
Qed.

(** ** The checks on a value that is not a string

    The buckets at the moment of the throw, read as those of [runChecks]
    are. *)

Ltac read_value proj :=
  cbv delta [DomVariant.runChecksOnValue DomVariant.unchanged]; cbv beta zeta iota;
  rewrite ?(proj_if fst); cbn [fst]; rewrite ?(proj_if proj);
  repeat read_step proj.

Ltac split_wordpress_block :=
  match goal with
  | |- context [?d && JSON.arrayIncludes ?e "wp-content/themes/"] =>
      destruct d; destruct (JSON.arrayIncludes e "wp-content/themes/")
  end.

Lemma runChecksOnValue_ux doc url html loadTime :
  JSON.isString html = false ->
  ux (fst (DomVariant.runChecksOnValue doc url html loadTime)) = [].
Proof.
  intros H.
  destruct html as [| b | n | s | elements | members]; try discriminate H;
    read_value ux; rewrite ?if_same; reflexivity.
Qed.

Lemma runChecksOnValue_performance doc url html loadTime :
  JSON.isString html = false ->
  performance (fst (DomVariant.runChecksOnValue doc url html loadTime))
  = if passesWordPressBlock doc html && (3000 <? loadTime)%Z
    then [slowLoad loadTime] else [].
Proof.
  intros H. unfold passesWordPressBlock, detectedInArray.
  destruct html as [| b | n | s | elements | members]; try discriminate H;
    read_value performance; rewrite ?if_same; try reflexivity;
    split_wordpress_block; cbn [app negb andb]; try reflexivity;
    repeat match goal with |- context [if ?c then _ else _] => destruct c end;
    reflexivity.
Qed.

Lemma runChecksOnValue_content doc url html loadTime :
  JSON.isString html = false ->
  content (fst (DomVariant.runChecksOnValue doc url html loadTime))
  = if passesWordPressBlock doc html
       && (JS.splitWhitespaceLength (Cheerio.text (doc "body")) <? 300)
    then [limitedContent] else [].
Proof.
  intros H. unfold passesWordPressBlock, detectedInArray.
  destruct html as [| b | n | s | elements | members]; try discriminate H;
    read_value content; rewrite ?if_same; try reflexivity;
    split_wordpress_block; cbn [app negb andb]; try reflexivity;
    repeat match goal with |- context [if ?c then _ else _] => destruct c end;
    reflexivity.
Qed.

Lemma runChecksOnValue_accessibility doc url html loadTime :
  JSON.isString html = false ->
  accessibility (fst (DomVariant.runChecksOnValue doc url html loadTime))
  = if 0 <? DomVariant.countImagesWithoutAlt (doc "img")
    then [imagesWithoutAltText (DomVariant.countImagesWithoutAlt (doc "img"))]
    else [].
Proof.
  intros H.
  destruct html as [| b | n | s | elements | members]; try discriminate H;
    read_value accessibility; rewrite ?if_same; reflexivity.
Qed.

Lemma runChecksOnValue_wordpress doc url html loadTime :
  JSON.isString html = false ->
  wordpress (fst (DomVariant.runChecksOnValue doc url html loadTime))
  = match html with
    | JSON.Array elements =>
        if detectedInArray doc elements
        then wordPressDetected
               :: (if negb (JSON.arrayIncludes elements "wp-content/themes/")
                      && negb (JSON.arrayIncludes elements "jetpack")
                   then [installJetpack] else [])
        else []
    | _ => []
    end.
Proof.
  intros H. unfold detectedInArray.
  destruct html as [| b | n | s | elements | members]; try discriminate H;
    read_value wordpress; rewrite ?if_same; try reflexivity;
    split_wordpress_block; cbn [app negb andb]; try reflexivity;
    repeat match goal with |- context [if ?c then _ else _] => destruct c end;
    reflexivity.
Qed.

Lemma runChecksOnValue_seo doc url html loadTime :
  JSON.isString html = false ->
  seo (fst (DomVariant.runChecksOnValue doc url html loadTime))
  = (documentSeo doc url
     ++ (if passesWordPressBlock doc html then openGraphAdvisories doc else []))%list.
Proof.
  intros H.
  unfold passesWordPressBlock, detectedInArray, documentSeo, titleAdvisories, titleOf,
    metaDescriptionAdvisories, h1Advisories, openGraphAdvisories.
  destruct html as [| b | n | s | elements | members]; try discriminate H;
    read_value seo;
    rewrite ?if_same, ?app_nil_r; cbn [app]; rewrite <- ?app_assoc;
    try reflexivity;
    split_wordpress_block; cbn [app negb andb]; rewrite ?app_nil_r; reflexivity.
Qed.

(** The [try] never completes on such a value. *)
Lemma runChecksOnValue_thrown doc url html loadTime :
  JSON.isString html = false ->
  exists message,
    snd (DomVariant.runChecksOnValue doc url html loadTime) = Some message.
Proof.
  intros H.
  cbv delta [DomVariant.runChecksOnValue DomVariant.unchanged]; cbv beta zeta.
  destruct html as [| b | n | s | elements | members]; try discriminate H;
    cbv iota; try (eexists; reflexivity).
  match goal with |- context [if ?c then _ else _] => destruct c end;
    eexists; reflexivity.
Qed.

(** A reply that axios parsed into something else than a string: the
    [catch] runs on what the [try] had pushed, and prints one line. *)
Lemma analyzeWebsite_parsed lib net elapsed target code data c :
  net target = Replied code data -> isSuccess code = true ->
  JSON.isString (axiosData lib data) = false ->
  exists message,
    DomVariant.analyzeWebsite lib net elapsed target c
    = (DomVariant.push_wordpress considerHosting
         (DomVariant.push_seo unableToAnalyze
            (pushedBeforeThrow lib target (axiosData lib data) elapsed)),
       app c [("Analysis error: " ++ message)%string]).
Proof.
  intros Hnet Hok Hv.
  unfold DomVariant.analyzeWebsite, pushedBeforeThrow. rewrite Hnet, Hok.
  destruct (axiosData lib data) as [| b | n | s | l | l] eqn:E; try discriminate Hv;
    match goal with
    | |- context [cheerioLoadValue lib ?v] =>
        destruct (cheerioLoadValue lib v) as [doc | m];
          [ destruct (runChecksOnValue_thrown doc target v elapsed Hv) as [m Hm];
            destruct (DomVariant.runChecksOnValue doc target v elapsed) as [r o];
            cbn [snd] in Hm; subst o
          | ];
          exists m; reflexivity
    end.
Qed.

Lemma bucketsOf_parsed lib net elapsed target code data :
  net target = Replied code data -> isSuccess code = true ->
  JSON.isString (axiosData lib data) = false ->
  bucketsOf lib net elapsed target
  = DomVariant.push_wordpress considerHosting
      (DomVariant.push_seo unableToAnalyze
         (pushedBeforeThrow lib target (axiosData lib data) elapsed)).
Proof.
  intros Hnet Hok Hv. unfold bucketsOf.
  destruct (analyzeWebsite_parsed lib net elapsed target code data [] Hnet Hok Hv)
    as [m ->].
  reflexivity.
Qed.

(** The three ways a run of [analyzeWebsite] can go. *)
Lemma bucketsOf_cases lib net elapsed target :
  (fetchFails net target = true
   /\ bucketsOf lib net elapsed target = failureBuckets)
  \/ (exists code data html,
        net target = Replied code data /\ isSuccess code = true
        /\ axiosData lib data = JSON.Str html
        /\ bucketsOf lib net elapsed target
           = DomVariant.runChecks (cheerioLoad lib) target html elapsed)
  \/ (exists code data,
        net target = Replied code data /\ isSuccess code = true
        /\ JSON.isString (axiosData lib data) = false
        /\ bucketsOf lib net elapsed target
           = DomVariant.push_wordpress considerHosting
               (DomVariant.push_seo unableToAnalyze
                  (pushedBeforeThrow lib target (axiosData lib data) elapsed))).
Proof.
  destruct (fetchFails net target) eqn:F.
  - left. split; [reflexivity | apply bucketsOf_failure; exact F].
  - right. unfold fetchFails in F.
    destruct (net target) as [code data | message] eqn:Hnet; [| discriminate F].
    apply negb_false_iff in F.
    destruct (JSON.isString (axiosData lib data)) eqn:Hv.
    + left. destruct (axiosData lib data) as [| b | n | html | l | l] eqn:E;
        try discriminate Hv.
      exists code, data, html. repeat split; try assumption.
      apply (bucketsOf_text lib net elapsed target code data html Hnet F E).
    + right. exists code, data. repeat split; try assumption.
      apply (bucketsOf_parsed lib net elapsed target code data Hnet F Hv).
Qed.

(** The sizes of what is pushed before a throw. *)
Lemma pushedBeforeThrow_sizes lib url html loadTime :
  JSON.isString html = false ->
  let r := pushedBeforeThrow lib url html loadTime in
  List.length (seo r) <= 6
  /\ List.length (wordpress r) <= 2
  /\ List.length (performance r) <= 1
  /\ ux r = []
  /\ List.length (accessibility r) <= 1
  /\ List.length (content r) <= 1.
Proof.
  intros Hv r. subst r. unfold pushedBeforeThrow.
  destruct (cheerioLoadValue lib html) as [doc | m];
    [| cbn; repeat split; lia].
  rewrite runChecksOnValue_seo, runChecksOnValue_wordpress,
    runChecksOnValue_performance, runChecksOnValue_ux,
    runChecksOnValue_accessibility, runChecksOnValue_content by exact Hv.
  split; [| split; [| split; [| split; [| split]]]].
  - unfold documentSeo. rewrite !length_app.
    pose proof (length_optional (negb (JS.startsWith url "https://")) useHttps).
    pose proof (length_optional (60 <? String.length url) urlTooLong).
    pose proof (titleAdvisories_length (titleOf doc)).
    pose proof (metaDescriptionAdvisories_length
                  (Cheerio.attr (doc ("meta[name=" ++ quoted "description" ++ "]")%string)
                     "content")).
    pose proof (h1Advisories_length (List.length (doc "h1"))).
    assert (List.length (if passesWordPressBlock doc html
                         then openGraphAdvisories doc else []) <= 1).
    { destruct (passesWordPressBlock doc html); [apply length_optional | cbn; lia]. }
    lia.
  - destruct html; try (cbn; lia).
    destruct (detectedInArray doc elements); [| cbn; lia].
    cbn [List.length].
    pose proof (length_optional
                  (negb (JSON.arrayIncludes elements "wp-content/themes/")
                   && negb (JSON.arrayIncludes elements "jetpack")) installJetpack).
    lia.
  - apply length_optional.
  - reflexivity.
  - apply length_optional.
  - apply length_optional.
Qed.

(** X9: the sizes of what a run of [analyzeWebsite] returns, whatever the
    network and the libraries do.  The seo bucket holds at most 7
    advisories, the wordpress bucket at most 4, the ux bucket at most 2,
    the performance, accessibility and content buckets at most one each,
    and the presenter makes between 2 and 6 groups of them.  When the page
    was fetched and axios hands it over as a string, the performance bucket
    holds exactly one advisory and the ux bucket at least one. *)
Theorem X9_bucket_sizes
    (lib : Libraries) (net : Net) (elapsed : Z) (target : string) (c : Console) :
  let b := fst (DomVariant.analyzeWebsite lib net elapsed target c) in
  List.length (seo b) <= 7
  /\ List.length (wordpress b) <= 4
  /\ List.length (performance b) <= 1
  /\ List.length (ux b) <= 2
  /\ List.length (accessibility b) <= 1
  /\ List.length (content b) <= 1
  /\ 2 <= List.length (DomVariant.compileResults b) <= 6
  /\ (forall code data html,
         net target = Replied code data -> isSuccess code = true ->
         axiosData lib data = JSON.Str html ->
         List.length (performance b) = 1 /\ 1 <= List.length (ux b)).
Proof.
  intros b. subst b. rewrite analyzeWebsite_buckets.
  assert (G : forall r : Improvements,
             (seo r <> [] /\ wordpress r <> []) \/ (performance r <> [] /\ ux r <> []) ->
             2 <= List.length (DomVariant.compileResults r) <= 6).
  { intros r Hr. rewrite compileResults_length.
    destruct r as [s p w u a k]. cbn [seo wordpress performance ux] in Hr.
    destruct Hr as [[H1 H2] | [H1 H2]];
      [destruct s; [contradiction |]; destruct w; [contradiction |]
      |destruct p; [contradiction |]; destruct u; [contradiction |]];
      cbn [seo wordpress performance ux accessibility content filter
           List.length Nat.ltb Nat.leb];
      repeat match goal with
             | |- context [if ?c then _ else _] => destruct c
             end; cbn [List.length]; lia. }
  destruct (bucketsOf_cases lib net elapsed target)
    as [[F ->] | [(code & data & html & Hnet & Hok & Hdata & ->)
                 | (code & data & Hnet & Hok & Hv & ->)]].
  - refine (conj _ (conj _ (conj _ (conj _ (conj _ (conj _ (conj _ _)))))));
      [cbn; lia | cbn; lia | cbn; lia | cbn; lia | cbn; lia | cbn; lia | |].
    + apply G. left. split; discriminate.
    + intros code data html Hnet Hok _. unfold fetchFails in F.
      rewrite Hnet, Hok in F. discriminate F.
  - destruct (runChecks_sizes (cheerioLoad lib) target html elapsed)
      as (S1 & S2 & S3 & S4 & S5 & S6).
    refine (conj _ (conj _ (conj _ (conj _ (conj _ (conj _ (conj _ _)))))));
      [lia | lia | lia | lia | lia | lia | |].
    + apply G. right. split; intros E; rewrite E in *; cbn in *; lia.
    + intros _ _ _ _ _ _. lia.
  - destruct (pushedBeforeThrow_sizes lib target (axiosData lib data) elapsed Hv)
      as (S1 & S2 & S3 & S4 & S5 & S6).
    cbn [seo wordpress performance ux accessibility content
         DomVariant.push_seo DomVariant.push_wordpress].
    rewrite !length_app. cbn [List.length]. rewrite S4. cbn [List.length].
    refine (conj _ (conj _ (conj _ (conj _ (conj _ (conj _ (conj _ _)))))));
      [lia | lia | lia | lia | lia | lia | |].
    + apply G. left. cbn [seo wordpress DomVariant.push_seo DomVariant.push_wordpress].
      split; intros E; apply (f_equal (@List.length _)) in E;
        rewrite length_app in E; cbn in E; lia.
    + intros code' data' html' Hnet' _ Hdata'.
      rewrite Hnet in Hnet'. injection Hnet' as <- <-.
      rewrite Hdata' in Hv. discriminate Hv.
Qed.

Lemma X9_bucket_sizes_witness :
  List.length
    (performance
       (fst (DomVariant.analyzeWebsite (libraries blankLoad) (staticNet "<p>hi</p>") 40
               "https://example.com" []))) = 1
  /\ 1 <= List.length
            (ux (fst (DomVariant.analyzeWebsite (libraries blankLoad)
                        (staticNet "<p>hi</p>") 40 "https://example.com" []))).
Proof.
  exact (proj2 (proj2 (proj2 (proj2 (proj2 (proj2 (proj2
           (X9_bucket_sizes (libraries blankLoad) (staticNet "<p>hi</p>") 40
              "https://example.com" [])))))))
           200 "<p>hi</p>" "<p>hi</p>" eq_refl eq_refl eq_refl).
Defined.

Lemma kept_categories_distinct (keep : OutputGroup -> bool) groups :
  NoDup (map category groups) ->
  NoDup (map category (filter keep groups)).
Proof.
  induction groups as [| g groups IH]; cbn [map filter]; intros H;
    [constructor |].
  inversion H as [| ? ? Hg Hrest]; subst.
  destruct (keep g); [| exact (IH Hrest)].
  cbn [map]. constructor; [| exact (IH Hrest)].
  intros Hin. apply Hg. apply in_map_iff in Hin.
  destruct Hin as (g' & E & Hkept).
  apply in_map_iff. exists g'. split; [exact E |].
  apply filter_In in Hkept. exact (proj1 Hkept).
Qed.

(** X10: the presenter loses and invents nothing.  The items of the groups
    it emits, read in order, are the six buckets one after the other in the
    order seo, wordpress, performance, ux, content, accessibility, and no
    category label appears twice. *)
Theorem X10_presenter_keeps_every_item (b : Improvements) :
  concat (map items (DomVariant.compileResults b))
  = (seo b ++ wordpress b ++ performance b ++ ux b ++ content b
       ++ accessibility b)%list
  /\ NoDup (map category (DomVariant.compileResults b)).
Proof.
  split.
  - destruct b as [s p w u a c]; destruct s, p, w, u, a, c;
      cbn [DomVariant.compileResults seo wordpress performance ux content
           accessibility List.length Nat.ltb Nat.leb app map items concat];
      rewrite ?app_nil_r; reflexivity.
  - rewrite compileResults_filter. apply kept_categories_distinct.
    change (map category (specTable b)) with analysisCategories.
    unfold analysisCategories.
    repeat (constructor; [cbn; intuition discriminate |]). constructor.
Qed.

(** * Further properties of the text tests *)

Lemma prefix_cons a n b s :
  String.prefix (String a n) (String b s)
  = if ascii_dec a b then String.prefix n s else false.
Proof. reflexivity. Qed.

Lemma prefix_toLowerCase n s :
  String.prefix n s = true ->
  String.prefix (JS.toLowerCase n) (JS.toLowerCase s) = true.
Proof.
  revert s. induction n as [| a n IH]; intros s H.
  - destruct s; reflexivity.
  - destruct s as [| b s]; [discriminate H |].
    rewrite prefix_cons in H. cbn [JS.toLowerCase]. rewrite prefix_cons.
    destruct (ascii_dec a b) as [-> | N]; [| discriminate H].
    destruct (ascii_dec (JS.lowerChar b) (JS.lowerChar b)) as [_ | N];
      [exact (IH s H) | contradiction].
Qed.

Lemma includes_unfold s needle :
  JS.includes s needle
  = String.prefix needle s
    || match s with
       | EmptyString => false
       | String _ s' => JS.includes s' needle
       end.
Proof. destruct s; reflexivity. Qed.

Lemma includes_toLowerCase s needle :
  JS.includes s needle = true ->
  JS.includes (JS.toLowerCase s) (JS.toLowerCase needle) = true.
Proof.
  induction s as [| b s IH]; rewrite includes_unfold; intros H.
  - rewrite orb_false_r in H.
    rewrite includes_unfold. rewrite (prefix_toLowerCase _ _ H). reflexivity.
  - apply orb_true_iff in H. rewrite includes_unfold.
    destruct H as [H | H].
    + rewrite (prefix_toLowerCase _ _ H). reflexivity.
    + cbn [JS.toLowerCase]. rewrite (IH H). apply orb_true_r.
Qed.

(** X11: the contact check of the cheerio-based analysis does not depend on
    letter case.  A document that contains "contact" or "email" in any
    mix of upper and lower case, or an at sign, never draws the "No obvious
    contact information" advisory. *)
Theorem X11_contact_check_ignores_case
    (load : string -> Cheerio.Document) (url html needle : string)
    (loadTime : Z) :
  JS.includes html needle = true ->
  In (JS.toLowerCase needle) ["contact"; "email"; "@"] ->
  contactCheckFires html = false
  /\ ~ In noContactInformation (ux (DomVariant.runChecks load url html loadTime)).
Proof.
  intros Hinc Hneedle.
  apply includes_toLowerCase in Hinc.
  assert (F : contactCheckFires html = false).
  { unfold contactCheckFires.
    destruct Hneedle as [E | [E | [E | []]]]; rewrite <- E in Hinc; rewrite Hinc;
      cbn [negb andb]; rewrite ?andb_false_r; reflexivity. }
  split; [exact F |].
  rewrite ux_runChecks, F. cbn [negb andb app].
  intros H. apply in_app_iff in H. destruct H as [H | H]; absurd_in H.
Qed.

Lemma X11_contact_check_ignores_case_witness :
  contactCheckFires "<a href=/about>CONTACT US</a>" = false.
Proof.
  exact (proj1 (X11_contact_check_ignores_case blankLoad "https://example.com"
                  "<a href=/about>CONTACT US</a>" "CONTACT" 10 eq_refl
                  (or_introl eq_refl))).
Defined.

(** The WordPress group of [analyzeHTML] for a document it detects. *)
Lemma analyzeHTML_detected_group needle html url loadTime :
  detectedByText html = true ->
  groupsNamed "WordPress.com Specific"
    (RegexVariant.analyzeHTML needle html url loadTime)
  = [ {| category := "WordPress.com Specific"; icon := "⚡"; priority := "high";
         items := (wordPressDetected :: planAdvisories needle html
                     ++ [optimizeImages])%list |} ].
Proof.
  intros D. unfold detectedByText in D.
  read_groups. rewrite D. unfold planAdvisories. cbv zeta.
  repeat match goal with
         | |- context [if ?c then _ else _] =>
             lazymatch c with
             | context [List.length] => fail
             | _ => destruct c
             end
         end; reflexivity.
Qed.

(** X12: a document that the cheerio-based analysis takes for WordPress
    because its text holds [wp-content] or [wordpress] is taken for
    WordPress by [analyzeHTML] too, which lower-cases the text before it
    looks; so [analyzeHTML] emits exactly one "WordPress.com Specific"
    group for it, which holds "WordPress site detected" and not the
    migration advisory. *)
Theorem X12_text_detection_carries_over
    (needle html url : string) (loadTime : Z) :
  JS.includes html "wp-content" = true \/ JS.includes html "wordpress" = true ->
  detectedByText html = true
  /\ exists advisories,
       groupsNamed "WordPress.com Specific"
         (RegexVariant.analyzeHTML needle html url loadTime)
       = [ {| category := "WordPress.com Specific"; icon := "⚡";
              priority := "high"; items := advisories |} ]
       /\ In wordPressDetected advisories
       /\ ~ In migrate advisories.
Proof.
  intros H.
  assert (D : detectedByText html = true).
  { unfold detectedByText.
    destruct H as [H | H]; apply includes_toLowerCase in H;
      cbn [JS.toLowerCase] in H; change (JS.toLowerCase EmptyString) with EmptyString in H.
    - change (String (JS.lowerChar "w") _) with "wp-content" in H.
      rewrite H. reflexivity.
    - change (String (JS.lowerChar "w") _) with "wordpress" in H.
      rewrite H. apply orb_true_iff. left. apply orb_true_r. }
  split; [exact D |].
  exists (wordPressDetected :: planAdvisories needle html ++ [optimizeImages])%list.
  split; [apply analyzeHTML_detected_group; exact D |].
  split; [left; reflexivity |].
  intros [E | E]; [discriminate E |].
  apply in_app_iff in E. destruct E as [E | [E | []]]; [| discriminate E].
  unfold planAdvisories in E. cbv zeta in E. rewrite !in_app_iff in E.
  destruct E as [E | [E | E]]; absurd_in E.
Qed.

Lemma X12_text_detection_carries_over_witness :
  detectedByText "<script src=/wp-content/plugins/x.js></script>" = true
  /\ exists advisories,
       groupsNamed "WordPress.com Specific"
         (RegexVariant.analyzeHTML "$"
            "<script src=/wp-content/plugins/x.js></script>"
            "https://example.com" 10)
       = [ {| category := "WordPress.com Specific"; icon := "⚡";
              priority := "high"; items := advisories |} ]
       /\ In wordPressDetected advisories
       /\ ~ In migrate advisories.
Proof.
  exact (X12_text_detection_carries_over "$"
           "<script src=/wp-content/plugins/x.js></script>"
           "https://example.com" 10 (or_introl eq_refl)).
Defined.

Lemma dropChars_append p rest :
  RegExp.dropChars (String.length p) (p ++ rest) = rest.
Proof. induction p as [| a p IH]; [destruct rest; reflexivity | exact IH]. Qed.

Lemma prefix_append_both p a b :
  String.prefix a b = true -> String.prefix (p ++ a) (p ++ b) = true.
Proof.
  intros H. induction p as [| c p IH]; [exact H |].
  cbn [append]. rewrite prefix_cons.
  destruct (ascii_dec c c) as [_ | N]; [exact IH | contradiction].
Qed.

Lemma prefix_empty s : String.prefix EmptyString s = true.
Proof. destruct s; reflexivity. Qed.

Lemma untilSlash_prefix s : String.prefix (RegExp.untilSlash s) s = true.
Proof.
  induction s as [| c s IH]; [reflexivity |].
  cbn [RegExp.untilSlash]. destruct (c =? "/")%char; [reflexivity |].
  rewrite prefix_cons. destruct (ascii_dec c c) as [_ | N]; [exact IH | contradiction].
Qed.

Lemma untilSlash_no_slash s : JS.includes (RegExp.untilSlash s) "/" = false.
Proof.
  induction s as [| c s IH]; [reflexivity |].
  cbn [RegExp.untilSlash]. destruct (c =? "/")%char eqn:E; [reflexivity |].
  rewrite includes_unfold, IH, orb_false_r, prefix_cons.
  destruct (ascii_dec "/" c) as [<- | N]; [discriminate E | reflexivity].
Qed.

Lemma includes_suffix pre suf needle :
  String.prefix needle suf = true -> JS.includes (pre ++ suf) needle = true.
Proof.
  intros H. induction pre as [| c pre IH]; cbn [append].
  - rewrite includes_unfold, H. reflexivity.
  - rewrite includes_unfold, IH. apply orb_true_r.
Qed.

Lemma firstMatch_found {A} (m : string -> option A) s r :
  RegExp.firstMatch m s = Some r ->
  exists pre suf, s = pre ++ suf /\ m suf = Some r.
Proof.
  induction s as [| c s IH]; cbn [RegExp.firstMatch]; intros H.
  - destruct (m EmptyString) eqn:E; [| discriminate H].
    exists EmptyString, EmptyString. split; [reflexivity | congruence].
  - destruct (m (String c s)) eqn:E.
    + exists EmptyString, (String c s). split; [reflexivity | congruence].
    + destruct (IH H) as (pre & suf & -> & Hm).
      exists (String c pre), suf. split; [reflexivity | exact Hm].
Qed.

Lemma prefix_of_prefix_append p a s :
  String.prefix (p ++ a) s = true -> String.prefix p s = true.
Proof.
  revert s. induction p as [| c p IH]; intros s H; [apply prefix_empty |].
  destruct s as [| d s]; [discriminate H |].
  cbn [append] in H. rewrite prefix_cons in *.
  destruct (ascii_dec c d); [exact (IH s H) | discriminate H].
Qed.

(** X13: the theme name that the cheerio-based analysis reports.  When the
    theme pattern matches, the captured name is not empty, holds no slash,
    and stands in the document right after [wp-content/themes/]; the theme
    advisory is then the one naming it. *)
Theorem X13_theme_name (html name : string) :
  RegExp.matchTheme html = Some name ->
  name <> EmptyString
  /\ JS.includes name "/" = false
  /\ JS.includes html ("wp-content/themes/" ++ name) = true
  /\ themeAdvisories html = [usingTheme name].
Proof.
  intros H.
  destruct (firstMatch_found _ _ _ H) as (pre & suf & -> & Hm).
  unfold RegExp.themeAt in Hm.
  destruct (String.prefix "wp-content/themes/" suf) eqn:P; [| discriminate Hm].
  destruct (prefix_split _ _ P) as [rest ->].
  rewrite dropChars_append in Hm.
  destruct (RegExp.untilSlash rest =? EmptyString)%string eqn:E; [discriminate Hm |].
  injection Hm as <-.
  assert (I : JS.includes (pre ++ "wp-content/themes/" ++ rest)
                ("wp-content/themes/" ++ RegExp.untilSlash rest) = true).
  { apply includes_suffix, prefix_append_both, untilSlash_prefix. }
  split; [apply String.eqb_neq; exact E |].
  split; [apply untilSlash_no_slash |].
  split; [exact I |].
  unfold themeAdvisories. rewrite H.
  rewrite (includes_suffix pre ("wp-content/themes/" ++ rest) "wp-content/themes/" P).
  reflexivity.
Qed.

Lemma X13_theme_name_witness :
  themeAdvisories "<link href=/wp-content/themes/astra/style.css>"
  = [usingTheme "astra"].
Proof.
  exact (proj2 (proj2 (proj2
           (X13_theme_name "<link href=/wp-content/themes/astra/style.css>" "astra"
              eq_refl)))).
Defined.

(** * Further properties of [analyzeHTML] *)

Lemma optional_group_items cat ic pr (l : list AdvisoryItem) g :
  In g (if 0 <? List.length l
        then [ {| category := cat; icon := ic; priority := pr; items := l |} ]
        else []) ->
  items g <> [].
Proof.
  destruct l as [| x l]; cbn; [intros [] |].
  intros [<- | []]. discriminate.
Qed.

Ltac open_analyzeHTML :=
  cbv delta [RegexVariant.analyzeHTML]; cbv beta zeta;
  rewrite ?if_app_then; cbn [app].

(** X14: what [analyzeHTML] always returns.  The groups "WordPress.com
    Specific", "Performance" and "User Experience" are always emitted, in
    this order; "SEO Optimization" can only come before them and
    "Accessibility" only after; there is never a "Content & Structure"
    group, and no emitted group is empty. *)
Theorem X14_analyzeHTML_groups (needle html url : string) (loadTime : Z) :
  let groups := RegexVariant.analyzeHTML needle html url loadTime in
  (exists withSeo withAccessibility : bool,
      map category groups
      = ((if withSeo then ["SEO Optimization"] else [])
           ++ ["WordPress.com Specific"; "Performance"; "User Experience"]
           ++ (if withAccessibility then ["Accessibility"] else []))%list)
  /\ (forall g, In g groups -> items g <> [])
  /\ 3 <= List.length groups <= 5.
Proof.
  intros groups.
  assert (Shape : exists seoG wpG perfG uxG accG,
             groups = (seoG ++ [wpG; perfG; uxG] ++ accG)%list
             /\ (seoG = [] \/ exists g, seoG = [g] /\ category g = "SEO Optimization")
             /\ category wpG = "WordPress.com Specific"
             /\ category perfG = "Performance"
             /\ category uxG = "User Experience"
             /\ (accG = [] \/ exists g, accG = [g] /\ category g = "Accessibility")
             /\ forall g, In g groups -> items g <> []).
  { subst groups. open_analyzeHTML.
    repeat match goal with
    | |- context [Build_OutputGroup ?cat ?ic ?pr ?i] =>
        lazymatch i with
        | context [if _ then _ else _] => idtac
        | context [match _ with Some _ => _ | None => _ end] => idtac
        end;
        let issues := fresh "issues" in set (issues := i)
    end.
    match goal with
    | |- context [Build_OutputGroup "WordPress.com Specific" _ _ ?i] =>
        assert (W : (0 <? List.length i) = true)
          by (subst i;
              repeat match goal with
                     | |- context [if ?c then _ else _] => destruct c
                     end; rewrite ?length_app; cbn [List.length];
              rewrite ?Nat.add_1_r; reflexivity);
        rewrite W
    end.
    match goal with
    | |- context [Build_OutputGroup "Performance" _ _ ?i] =>
        assert (P : (0 <? List.length i) = true)
          by (subst i; destruct (3000 <? loadTime)%Z; reflexivity);
        rewrite P
    end.
    match goal with
    | |- context [Build_OutputGroup "User Experience" _ _ ?i] =>
        assert (U : (0 <? List.length i) = true)
          by (subst i;
              repeat match goal with
                     | |- context [if negb ?c then _ else _] => destruct c; cbn [negb andb]
                     | |- context [if ?c && _ && _ then _ else _] =>
                         destruct c; cbn [negb andb]
                     | |- context [if ?c && _ then _ else _] =>
                         destruct c; cbn [negb andb]
                     end; reflexivity);
        rewrite U
    end.
    repeat match goal with x := _ : list AdvisoryItem |- _ => clearbody x end.
    rewrite <- !app_assoc; cbn [app].
    match goal with
    | |- exists _ _ _ _ _, (?s ++ ?w :: ?p :: ?u :: ?a)%list = _ /\ _ =>
        exists s, w, p, u, a
    end.
    split; [reflexivity |].
    repeat split.
    - match goal with |- (if ?c then _ else _) = [] \/ _ => destruct c end;
        [right; eexists; split; reflexivity | left; reflexivity].
    - match goal with |- (if ?c then _ else _) = [] \/ _ => destruct c end;
        [right; eexists; split; reflexivity | left; reflexivity].
    - intros g. rewrite !in_app_iff. cbn [In].
      intros [H | [H | [H | [H | H]]]];
        try (revert H; apply optional_group_items);
        subst g; cbn [items];
        match goal with
        | E : (0 <? List.length ?i) = true |- ?i <> [] =>
            intros Z; rewrite Z in E; discriminate E
        end. }
  destruct Shape as (seoG & wpG & perfG & uxG & accG & -> & S' & W & P & U & A & N).
  split; [| split; [exact N |]].
  - exists (match seoG with [] => false | _ => true end),
           (match accG with [] => false | _ => true end).
    rewrite !map_app. cbn [map]. rewrite W, P, U.
    destruct S' as [-> | (g & -> & Eg)], A as [-> | (g' & -> & Eg')];
      cbn [map]; rewrite ?Eg, ?Eg'; reflexivity.
  - rewrite !length_app. cbn [List.length].
    destruct S' as [-> | (g & -> & _)], A as [-> | (g' & -> & _)];
      cbn [List.length]; lia.
Qed.

(** X15: the title check of [analyzeHTML].  Whenever the title pattern
    matches and the trimmed capture is shorter than 30 characters, the SEO
    group is emitted and holds "Page title seems short" and not "Missing
    page title"; this covers the empty title [<title></title>], which the
    cheerio-based analysis reports as missing. *)
Theorem X15_analyzeHTML_short_title
    (needle html url : string) (loadTime : Z) (capture : string) :
  RegExp.matchTitle html = Some capture ->
  String.length (JS.trim capture) < 30 ->
  exists seoItems,
    groupsNamed "SEO Optimization" (RegexVariant.analyzeHTML needle html url loadTime)
    = [ {| category := "SEO Optimization"; icon := "🔍"; priority := "high";
           items := seoItems |} ]
    /\ In titleTooShort seoItems
    /\ ~ In missingTitle seoItems.
Proof.
  intros Hm Hlen.
  read_groups. rewrite Hm. cbv beta iota.
  assert (L60 : (60 <? String.length (JS.trim capture)) = false)
    by (apply Nat.ltb_ge; lia).
  assert (L30 : (String.length (JS.trim capture) <? 30) = true)
    by (apply Nat.ltb_lt; exact Hlen).
  rewrite L60, L30.
  rewrite ?if_app_then, ?if_app_both, ?if_app_else. cbn [app].
  match goal with
  | |- context [Build_OutputGroup "SEO Optimization" _ _ ?i] =>
      set (issues := i);
      assert (S' : In titleTooShort issues)
        by (subst issues; rewrite !in_app_iff; do 3 left; right; left; reflexivity);
      assert (M : ~ In missingTitle issues)
        by (subst issues; rewrite !in_app_iff;
            intros [[[[H | H] | H] | H] | H]; absurd_in H);
      clearbody issues
  end.
  exists issues.
  destruct issues as [| x l]; [destruct S' |].
  repeat split; assumption.
Qed.

Lemma X15_analyzeHTML_short_title_witness :
  exists seoItems,
    groupsNamed "SEO Optimization"
      (RegexVariant.analyzeHTML "$" "<title></title>" "https://example.com" 10)
    = [ {| category := "SEO Optimization"; icon := "🔍"; priority := "high";
           items := seoItems |} ]
    /\ In titleTooShort seoItems
    /\ ~ In missingTitle seoItems.
Proof.
  exact (X15_analyzeHTML_short_title "$" "<title></title>" "https://example.com" 10
           EmptyString eq_refl (Nat.lt_0_succ 29)).
Defined.

(** * Further properties of the matchers *)

Lemma substring_head head tail :
  substring 0 (String.length head) (head ++ tail) = head.
Proof.
  induction head as [| c head IH]; cbn.
  - destruct tail; reflexivity.
  - now rewrite IH.
Qed.

Lemma prefixIgnoreCase_split pat s :
  RegExp.prefixIgnoreCase pat s = true ->
  exists head tail,
    s = head ++ tail /\ String.length head = String.length pat
    /\ RegExp.prefixIgnoreCase pat head = true.
Proof.
  revert s. induction pat as [| p pat IH]; intros s H.
  - exists EmptyString, s. repeat split.
  - destruct s as [| c s]; [discriminate H |].
    cbn [RegExp.prefixIgnoreCase] in H. apply andb_true_iff in H. destruct H as [Hc H].
    destruct (IH s H) as (head & tail & -> & L & P).
    exists (String c head), tail. cbn [String.length RegExp.prefixIgnoreCase append].
    rewrite L, Hc, P. repeat split.
Qed.

Lemma throughFirstGt_split s m rest :
  RegExp.throughFirstGt s = Some (m, rest) ->
  exists body, m = body ++ ">" /\ s = m ++ rest /\ JS.includes body ">" = false.
Proof.
  revert m rest. induction s as [| c s IH]; intros m rest H; [discriminate H |].
  cbn [RegExp.throughFirstGt] in H.
  destruct (c =? ">")%char eqn:E.
  - apply Ascii.eqb_eq in E. subst c. injection H as <- <-.
    exists EmptyString. repeat split.
  - destruct (RegExp.throughFirstGt s) as [[m' rest'] |]; [| discriminate H].
    injection H as <- <-.
    destruct (IH m' rest' eq_refl) as (body & -> & -> & N).
    exists (String c body). repeat split.
    rewrite includes_unfold, N, orb_false_r, prefix_cons.
    destruct (ascii_dec ">" c) as [<- | _]; [discriminate E | reflexivity].
Qed.

Lemma openTagAt_split name s m :
  RegExp.openTagAt name s = Some m ->
  exists head body rest,
    m = head ++ body ++ ">" /\ s = m ++ rest
    /\ String.length head = S (String.length name)
    /\ RegExp.prefixIgnoreCase ("<" ++ name) head = true
    /\ JS.includes body ">" = false.
Proof.
  unfold RegExp.openTagAt. intros H.
  destruct (RegExp.prefixIgnoreCase ("<" ++ name) s) eqn:P; [| discriminate H].
  destruct (prefixIgnoreCase_split _ _ P) as (head & tail & -> & L & Ph).
  rewrite <- L in H. rewrite dropChars_append, substring_head in H.
  destruct (RegExp.throughFirstGt tail) as [[mt rest] |] eqn:T; [| discriminate H].
  injection H as <-.
  destruct (throughFirstGt_split _ _ _ T) as (body & -> & -> & N).
  exists head, body, rest. repeat split; try assumption.
  clear. induction head as [| c head IH]; cbn [append]; [reflexivity | now rewrite IH].
Qed.

Lemma scanOpenTags_found name skip s m :
  In m (RegExp.scanOpenTags name skip s) ->
  exists pre suf, s = pre ++ suf /\ RegExp.openTagAt name suf = Some m.
Proof.
  revert skip. induction s as [| c s IH]; intros skip H; [destruct H |].
  cbn [RegExp.scanOpenTags] in H.
  assert (Tail : forall k, In m (RegExp.scanOpenTags name k s) ->
                 exists pre suf, String c s = pre ++ suf
                                 /\ RegExp.openTagAt name suf = Some m).
  { intros k Hk. destruct (IH k Hk) as (pre & suf & -> & O).
    exists (String c pre), suf. split; [reflexivity | exact O]. }
  destruct skip as [| k]; [| exact (Tail k H)].
  destruct (RegExp.openTagAt name (String c s)) as [m' |] eqn:O;
    [| exact (Tail 0 H)].
  destruct H as [<- | H]; [| exact (Tail _ H)].
  exists EmptyString, (String c s). split; [reflexivity | exact O].
Qed.

(** X16: what the tag pattern [/<NAME[^>]*>/gi] of [analyzeHTML] matches.
    Every match is a piece of the document that opens with [<NAME] in any
    letter case, ends with [>], and holds no other [>]. *)
Theorem X16_matched_tags (name html m : string) :
  In m (RegExp.matchAllOpenTags name html) ->
  JS.includes html m = true
  /\ exists head body,
       m = head ++ body ++ ">"
       /\ String.length head = S (String.length name)
       /\ RegExp.prefixIgnoreCase ("<" ++ name) head = true
       /\ JS.includes body ">" = false.
Proof.
  intros H. unfold RegExp.matchAllOpenTags in H.
  destruct (scanOpenTags_found _ _ _ _ H) as (pre & suf & -> & O).
  destruct (openTagAt_split _ _ _ O) as (head & body & rest & Em & Es & L & P & N).
  split.
  - apply includes_suffix. rewrite Es. apply prefix_append.
  - exists head, body. repeat split; assumption.
Qed.

Lemma X16_matched_tags_witness :
  JS.includes "<p><IMG src=a.png alt=x></p>" "<IMG src=a.png alt=x>" = true.
Proof.
  exact (proj1 (X16_matched_tags "img" "<p><IMG src=a.png alt=x></p>"
                  "<IMG src=a.png alt=x>" (or_introl eq_refl))).
Defined.

(** * Further properties of the text helpers *)

Lemma trimStart_allWhiteSpace pad :
  allWhiteSpace pad = true -> JS.trimStart pad = EmptyString.
Proof.
  induction pad as [| c pad IH]; [reflexivity |].
  cbn [allWhiteSpace JS.trimStart]. intros H. apply andb_true_iff in H.
  destruct H as [Hc H]. rewrite Hc. exact (IH H).
Qed.

Lemma trimEnd_allWhiteSpace pad :
  allWhiteSpace pad = true -> JS.trimEnd pad = EmptyString.
Proof.
  induction pad as [| c pad IH]; [reflexivity |].
  cbn [allWhiteSpace JS.trimEnd]. intros H. apply andb_true_iff in H.
  destruct H as [Hc H]. rewrite (IH H), Hc. reflexivity.
Qed.

Lemma trimStart_pad pad s :
  allWhiteSpace pad = true -> JS.trimStart (pad ++ s) = JS.trimStart s.
Proof.
  induction pad as [| c pad IH]; [reflexivity |].
  cbn [allWhiteSpace JS.trimStart append]. intros H. apply andb_true_iff in H.
  destruct H as [Hc H]. rewrite Hc. exact (IH H).
Qed.

Lemma trimEnd_pad s pad :
  allWhiteSpace pad = true -> JS.trimEnd (s ++ pad) = JS.trimEnd s.
Proof.
  intros H. induction s as [| c s IH]; cbn [append].
  - apply trimEnd_allWhiteSpace, H.
  - cbn [JS.trimEnd]. rewrite IH. reflexivity.
Qed.

Lemma trim_pad_end core pad :
  allWhiteSpace pad = true -> JS.trim (core ++ pad) = JS.trim core.
Proof.
  intros H. unfold JS.trim. induction core as [| c core IH]; cbn [append].
  - rewrite (trimStart_allWhiteSpace pad H). reflexivity.
  - cbn [JS.trimStart]. destruct (JS.isWhiteSpace c); [exact IH |].
    exact (trimEnd_pad (String c core) pad H).
Qed.

Lemma safeText_trim s : DomVariant.safeText s = JS.trim s.
Proof. destruct s; reflexivity. Qed.

Lemma text_single e : Cheerio.text [e] = Cheerio.textContent e.
Proof. reflexivity. Qed.

(** X17: white space around the title does not count.  [safeText] gives
    the same text with and without leading and trailing white space, so
    two documents whose only [title] elements differ in such padding get
    the same title advisories. *)
Theorem X17_title_padding_is_ignored (pad1 core pad2 : string) :
  allWhiteSpace pad1 = true -> allWhiteSpace pad2 = true ->
  DomVariant.safeText (pad1 ++ core ++ pad2) = DomVariant.safeText core
  /\ forall (doc1 doc2 : Cheerio.Document) attrs1 attrs2,
       doc1 "title" = [element attrs1 (pad1 ++ core ++ pad2)] ->
       doc2 "title" = [element attrs2 core] ->
       titleAdvisories (titleOf doc1) = titleAdvisories (titleOf doc2).
Proof.
  intros H1 H2.
  assert (E : DomVariant.safeText (pad1 ++ core ++ pad2) = DomVariant.safeText core).
  { rewrite !safeText_trim. unfold JS.trim at 1.
    rewrite (trimStart_pad pad1 _ H1). fold (JS.trim (core ++ pad2)).
    apply trim_pad_end, H2. }
  split; [exact E |].
  intros doc1 doc2 attrs1 attrs2 D1 D2. unfold titleOf.
  rewrite D1, D2, !text_single. cbn [element Cheerio.textContent].
  rewrite E. reflexivity.
Qed.

Lemma X17_title_padding_is_ignored_witness :
  DomVariant.safeText ("  " ++ "Home" ++ " ") = DomVariant.safeText "Home".
Proof.
  exact (proj1 (X17_title_padding_is_ignored "  " "Home" " " eq_refl eq_refl)).
Defined.

Lemma countRuns_bound inRun s :
  2 * JS.countRuns inRun s <= String.length s + (if inRun then 0 else 1).
Proof.
  revert inRun. induction s as [| c s IH]; intros inRun; cbn [JS.countRuns String.length].
  - destruct inRun; cbv iota; lia.
  - destruct (JS.isWhiteSpace c).
    + specialize (IH true). destruct inRun; cbv iota in *; lia.
    + specialize (IH false). destruct inRun; cbv iota in *; lia.
Qed.

(** X18: the word count of the content check is one more than the number
    of white-space runs in the body text, so it is at least 1 and a body
    text of fewer than 597 characters always draws the "limited content"
    advisory, an empty body included. *)
Theorem X18_short_body_is_limited_content
    (load : string -> Cheerio.Document) (url html : string) (loadTime : Z) :
  String.length (Cheerio.text (load html "body")) < 597 ->
  1 <= JS.splitWhitespaceLength (Cheerio.text (load html "body")) < 300
  /\ content (DomVariant.runChecks load url html loadTime) = [limitedContent].
Proof.
  intros H.
  pose proof (countRuns_bound false (Cheerio.text (load html "body"))) as B.
  cbv iota in B.
  assert (R : 1 <= JS.splitWhitespaceLength (Cheerio.text (load html "body")) < 300).
  { unfold JS.splitWhitespaceLength. lia. }
  split; [exact R |].
  rewrite content_runChecks.
  destruct R as [_ R]. apply Nat.ltb_lt in R. rewrite R. reflexivity.
Qed.

Lemma X18_short_body_is_limited_content_witness :
  content (DomVariant.runChecks blankLoad "https://example.com" "<body></body>" 10)
  = [limitedContent].
Proof.
  exact (proj2 (X18_short_body_is_limited_content blankLoad "https://example.com"
                  "<body></body>" 10 (Nat.lt_0_succ 596))).
Defined.

(** * Further properties of the SEO checks *)

Lemma length_append a b : String.length (a ++ b) = String.length a + String.length b.
Proof. induction a as [| c a IH]; cbn; [reflexivity | now rewrite IH]. Qed.

(** X19: the URL length check sees the URL after the scheme was added.
    When the page is fetched and axios hands it over as a string, "URL is
    quite long" is in the SEO group of the response exactly when the
    analysed URL has more than 60 characters; for a URL sent without a
    scheme that is 8 characters more than what was sent, so such a URL
    draws the advisory from 53 characters on. *)
Theorem X19_url_length_after_scheme
    (lib : Libraries) (net : Net) (elapsed : Z)
    (u data html : string) (code : nat) (c : Console) :
  u <> EmptyString ->
  net (ensureProtocol u) = Replied code data -> isSuccess code = true ->
  axiosData lib data = JSON.Str html ->
  let r := fst (DomVariant.handler lib net elapsed (post u) c) in
  let fires := exists g, In g (groupsNamed "SEO Optimization" (improvementsOf r))
                         /\ In urlTooLong (items g) in
  (fires <-> 60 < String.length (ensureProtocol u))
  /\ (JS.startsWith u "http://" = false -> JS.startsWith u "https://" = false ->
      (fires <-> 53 <= String.length u)).
Proof.
  intros Hu Hnet Hok Hdata r fires. subst fires r.
  rewrite (seo_group_of_response lib net elapsed u data html code c urlTooLong
             Hu Hnet Hok Hdata).
  assert (A : In urlTooLong
                (seo (DomVariant.runChecks (cheerioLoad lib) (ensureProtocol u)
                        html elapsed))
              <-> 60 < String.length (ensureProtocol u)).
  { rewrite seo_in.
    unfold titleAdvisories, metaDescriptionAdvisories, h1Advisories,
      openGraphAdvisories, structuredDataAdvisories.
    split.
    - intros [H | [H | [H | [H | [H | [H | H]]]]]];
        try (exfalso; absurd_in H).
      destruct (Nat.ltb_spec 60 (String.length (ensureProtocol u))) as [L | L];
        [exact L | destruct H].
    - intros L. right. left. apply Nat.ltb_lt in L. rewrite L. left. reflexivity. }
  split; [exact A |].
  intros Hp Hs. rewrite A. unfold ensureProtocol. rewrite Hp, Hs. cbn [negb andb].
  rewrite length_append. cbn [String.length]. lia.
Qed.

Lemma X19_url_length_after_scheme_witness :
  (exists g,
      In g (groupsNamed "SEO Optimization"
              (improvementsOf
                 (fst (DomVariant.handler (libraries blankLoad) (staticNet "<p>hi</p>") 40
                         (post "example.com") []))))
      /\ In urlTooLong (items g))
  <-> 60 < String.length (ensureProtocol "example.com").
Proof.
  exact (proj1 (X19_url_length_after_scheme (libraries blankLoad)
                  (staticNet "<p>hi</p>") 40
                  "example.com" "<p>hi</p>" "<p>hi</p>" 200 []
                  ltac:(discriminate) eq_refl eq_refl eq_refl)).
Defined.

(** X20: the Open Graph and structured-data checks of the cheerio-based
    analysis.  "Missing Open Graph tags" is emitted exactly when the
    content of [og:title] or of [og:description] is absent or empty;
    "No structured data found" exactly when the text does not hold
    [schema.org] and there is no [application/ld+json] script. *)
Theorem X20_open_graph_and_structured_data
    (load : string -> Cheerio.Document) (url html : string) (loadTime : Z) :
  let b := DomVariant.runChecks load url html loadTime in
  let ogTitle :=
    Cheerio.attr (load html ("meta[property=" ++ quoted "og:title" ++ "]")%string)
      "content" in
  let ogDesc :=
    Cheerio.attr (load html ("meta[property=" ++ quoted "og:description" ++ "]")%string)
      "content" in
  (In missingOpenGraph (seo b) <-> truthy ogTitle = false \/ truthy ogDesc = false)
  /\ (In noStructuredData (seo b)
      <-> JS.includes html "schema.org" = false
          /\ load html ("script[type=" ++ quoted "application/ld+json" ++ "]")%string = []).
Proof.
  intros b ogTitle ogDesc. subst b. split.
  - rewrite seo_in.
    unfold titleAdvisories, metaDescriptionAdvisories, h1Advisories,
      structuredDataAdvisories.
    unfold openGraphAdvisories. fold ogTitle ogDesc.
    split.
    + intros [H | [H | [H | [H | [H | [H | H]]]]]];
        try (exfalso; absurd_in H).
      destruct (truthy ogTitle); [| left; reflexivity].
      destruct (truthy ogDesc); [| right; reflexivity].
      destruct H.
    + intros H. do 5 right. left.
      destruct H as [H | H]; rewrite H; cbn [negb orb];
        rewrite ?orb_true_r; left; reflexivity.
  - rewrite seo_in.
    unfold titleAdvisories, metaDescriptionAdvisories, h1Advisories,
      openGraphAdvisories.
    unfold structuredDataAdvisories.
    split.
    + intros [H | [H | [H | [H | [H | [H | H]]]]]];
        try (exfalso; absurd_in H).
      destruct (JS.includes html "schema.org"); cbn [negb andb] in H; [destruct H |].
      split; [reflexivity |].
      match type of H with
      | context [List.length ?sel =? 0] =>
          destruct sel as [| e l]; [reflexivity | destruct H]
      end.
    + intros [H1 H2]. do 6 right. rewrite H1, H2. left. reflexivity.
Qed.

(** * Further properties of the WordPress advice of [analyzeHTML] *)

(** X21: for a document that [analyzeHTML] takes for WordPress, the
    WordPress group starts with "WordPress site detected" and ends with
    "Optimize images"; between them stand at most the Business plan, the
    WooCommerce and the Jetpack advisories, in this order.  "Install
    Jetpack" is among them exactly when the lower-cased text does not hold
    [jetpack], and the WooCommerce advisory never when it holds
    [woocommerce]. *)
Theorem X21_analyzeHTML_wordpress_advice
    (needle html url : string) (loadTime : Z) :
  detectedByText html = true ->
  groupsNamed "WordPress.com Specific"
    (RegexVariant.analyzeHTML needle html url loadTime)
  = [ {| category := "WordPress.com Specific"; icon := "⚡"; priority := "high";
         items := (wordPressDetected :: planAdvisories needle html
                     ++ [optimizeImages])%list |} ]
  /\ List.length (planAdvisories needle html) <= 3
  /\ (In installJetpack (planAdvisories needle html)
      <-> JS.includes (JS.toLowerCase html) "jetpack" = false)
  /\ (JS.includes (JS.toLowerCase html) "woocommerce" = true ->
      ~ In wooCommerce (planAdvisories needle html)).
Proof.
  intros D. unfold detectedByText in D.
  split; [| split; [| split]].
  - read_groups. rewrite D. unfold planAdvisories. cbv zeta.
    repeat match goal with
           | |- context [if ?c then _ else _] =>
               lazymatch c with
               | context [List.length] => fail
               | _ => destruct c
               end
           end; reflexivity.
  - unfold planAdvisories. cbv zeta. rewrite !length_app.
    repeat match goal with
           | |- context [if ?c then _ else _] => destruct c
           end; cbn; lia.
  - unfold planAdvisories. cbv zeta. rewrite !in_app_iff.
    destruct (JS.includes (JS.toLowerCase html) "jetpack"); cbn [negb]; split.
    + intros [H | [H | H]]; exfalso; absurd_in H.
    + discriminate.
    + reflexivity.
    + intros _. right. right. left. reflexivity.
  - intros W. unfold planAdvisories. cbv zeta. rewrite W, !in_app_iff.
    cbn [negb]. rewrite andb_false_r.
    intros [H | [H | H]]; absurd_in H.
Qed.

Lemma X21_analyzeHTML_wordpress_advice_witness :
  List.length (planAdvisories "$" "<link href=/wp-content/themes/astra/a.css>") <= 3.
Proof.
  exact (proj1 (proj2 (X21_analyzeHTML_wordpress_advice "$"
                         "<link href=/wp-content/themes/astra/a.css>"
                         "https://example.com" 10 eq_refl))).
Defined.

(** * Further properties of the printed load time *)

Lemma allFrom_spec test start count :
  allFrom test start count = true ->
  forall z, (start <= z < start + Z.of_nat count)%Z -> test z = true.
Proof.
  revert start. induction count as [| k IH]; intros start H z Hz; [lia |].
  cbn [allFrom] in H. apply andb_true_iff in H. destruct H as [H0 H].
  destruct (Z.eq_dec z start) as [-> | N]; [exact H0 |].
  apply (IH (start + 1)%Z H). lia.
Qed.

Lemma allFrom_range test start width :
  allFrom test start (Z.to_nat width) = true ->
  forall z, (start <= z < start + width)%Z -> test z = true.
Proof.
  intros H z Hz. apply (allFrom_spec _ _ _ H). lia.
Qed.

(** X22: the load time in the "Page loaded in ... seconds" advisory.  For
    every elapsed time above 3000 ms and up to a minute the seconds printed
    are the elapsed time rounded to the nearest tenth (off by at most
    0.05 s) and never below 3.0; from 3001 to 3049 ms the advisory reads
    "Page loaded in 3.0 seconds - should be under 3 seconds". *)
Theorem X22_printed_load_time (ms : Z) :
  (3000 < ms <= 60000)%Z ->
  let n := JS.nearestTenths (JS.divideBy1000 ms) in
  JS.toFixed1 ms = JS.withOneDecimal n
  /\ (Z.abs (100 * n - ms) <= 50)%Z
  /\ (30 <= n)%Z
  /\ ((ms < 3050)%Z ->
      text (slowLoad ms) = "Page loaded in 3.0 seconds - should be under 3 seconds").
Proof.
  intros H n.
  assert (All : allFrom printsNearestTenth 3001 (Z.to_nat 57000) = true)
    by (vm_compute; reflexivity).
  assert (Low : allFrom (fun z => (JS.toFixed1 z =? "3.0")%string) 3001
                  (Z.to_nat 49) = true)
    by (vm_compute; reflexivity).
  pose proof (allFrom_range _ _ _ All ms ltac:(lia)) as P.
  unfold printsNearestTenth in P. fold n in P.
  apply andb_true_iff in P. destruct P as [P1 P2].
  apply Z.leb_le in P1, P2.
  split; [| split; [exact P1 | split; [exact P2 |]]].
  - unfold JS.toFixed1.
    destruct (Z.eqb_spec ms 0) as [E | _]; [lia |].
    destruct (Z.ltb_spec ms 0) as [L | _]; [lia |].
    reflexivity.
  - intros L.
    pose proof (allFrom_range _ _ _ Low ms ltac:(lia)) as Q.
    apply String.eqb_eq in Q. unfold slowLoad. cbn [text]. rewrite Q. reflexivity.
Qed.

Lemma X22_printed_load_time_witness :
  JS.toFixed1 3250 = JS.withOneDecimal (JS.nearestTenths (JS.divideBy1000 3250)).
Proof.
  exact (proj1 (X22_printed_load_time 3250 ltac:(lia))).
Defined.

(** * Replies that are JSON *)

Lemma compileResults_without_ux b :
  ux b = [] -> groupsNamed "User Experience" (DomVariant.compileResults b) = [].
Proof.
  destruct b as [s p w u a c]; cbn [ux]; intros ->;
    destruct s, p, w, a, c; reflexivity.
Qed.

(** X23: a reply that axios parses into anything but a string ends in the
    [catch] of [analyzeWebsite], however far the checks got.  One line
    "Analysis error: ..." is printed; the seo bucket ends with "Unable to
    fully analyze site" and the wordpress bucket with "Consider
    WordPress.com hosting"; the ux bucket is empty, so there is no "User
    Experience" group, and the generic performance advisory is absent.
    Unless the value is an array, the wordpress bucket holds nothing else
    and the performance and content buckets are empty; when [cheerio.load]
    throws on the value, the buckets are those of a failed fetch. *)
Theorem X23_parsed_reply_ends_in_the_catch
    (lib : Libraries) (net : Net) (elapsed : Z) (target data : string)
    (code : nat) (c : Console) :
  net target = Replied code data -> isSuccess code = true ->
  JSON.isString (axiosData lib data) = false ->
  let run := DomVariant.analyzeWebsite lib net elapsed target c in
  let b := fst run in
  (exists message, snd run = app c [("Analysis error: " ++ message)%string])
  /\ (exists before, seo b = (before ++ [unableToAnalyze])%list)
  /\ (exists before, wordpress b = (before ++ [considerHosting])%list)
  /\ ux b = []
  /\ ~ In genericPerformance (performance b)
  /\ groupsNamed "User Experience" (DomVariant.compileResults b) = []
  /\ (JSON.isArray (axiosData lib data) = false ->
      wordpress b = [considerHosting] /\ performance b = [] /\ content b = [])
  /\ (forall message,
         cheerioLoadValue lib (axiosData lib data) = inr message ->
         b = failureBuckets).
Proof.
  intros Hnet Hok Hv run b. subst b run.
  destruct (analyzeWebsite_parsed lib net elapsed target code data c Hnet Hok Hv)
    as [m ->].
  cbn [fst snd seo wordpress performance ux content
       DomVariant.push_seo DomVariant.push_wordpress].
  assert (U : ux (pushedBeforeThrow lib target (axiosData lib data) elapsed) = []).
  { unfold pushedBeforeThrow.
    destruct (cheerioLoadValue lib (axiosData lib data)) as [doc | m'];
      [apply runChecksOnValue_ux; exact Hv | reflexivity]. }
  split; [exists m; reflexivity |].
  split; [eexists; reflexivity |].
  split; [eexists; reflexivity |].
  split; [exact U |].
  split; [| split; [| split]].
  - unfold pushedBeforeThrow.
    destruct (cheerioLoadValue lib (axiosData lib data)) as [doc | m'];
      [| intros []].
    rewrite runChecksOnValue_performance by exact Hv.
    destruct (passesWordPressBlock doc (axiosData lib data) && (3000 <? elapsed)%Z);
      [| intros []].
    intros [E | []]. apply (f_equal source) in E. discriminate E.
  - apply compileResults_without_ux. exact U.
  - intros Harray. unfold pushedBeforeThrow.
    destruct (cheerioLoadValue lib (axiosData lib data)) as [doc | m'];
      [| repeat split].
    rewrite runChecksOnValue_wordpress, runChecksOnValue_performance,
      runChecksOnValue_content by exact Hv.
    destruct (axiosData lib data) as [| k | n | s | elements | members];
      try discriminate Harray; repeat split; reflexivity.
  - intros message Hload. unfold pushedBeforeThrow. rewrite Hload. reflexivity.
Qed.

Lemma X23_parsed_reply_ends_in_the_catch_witness :
  ux (fst (DomVariant.analyzeWebsite (libraries blankLoad)
             (staticNet ("{" ++ quoted "a" ++ ":1}")) 40 "https://example.com" []))
  = [].
Proof.
  exact (proj1 (proj2 (proj2 (proj2
           (X23_parsed_reply_ends_in_the_catch (libraries blankLoad)
              (staticNet ("{" ++ quoted "a" ++ ":1}")) 40 "https://example.com"
              ("{" ++ quoted "a" ++ ":1}") 200 [] eq_refl eq_refl eq_refl))))).
Defined.

(** Two JSON pages, run through the libraries of the examples.  On the
    object the document checks run and [html.includes] throws; on the array
    of a string [cheerio.load] throws before any check. *)
Example json_object_page :
  DomVariant.analyzeWebsite (libraries blankLoad)
    (staticNet ("{" ++ quoted "a" ++ ":1}")) 40 "https://example.com" []
  = ({| seo := [missingTitle; missingMetaDescription; noH1; unableToAnalyze];
        performance := [];
        wordpress := [considerHosting];
        ux := [];
        accessibility := [];
        content := [] |},
     ["Analysis error: html.includes is not a function"]).
Proof. vm_compute. reflexivity. Qed.

Example json_array_page :
  fst (DomVariant.analyzeWebsite (libraries blankLoad)
         (staticNet ("[" ++ quoted "wp-content" ++ "]")) 40 "http://example.com" [])
  = failureBuckets.
Proof. vm_compute. reflexivity. Qed.
